(** * Multimodal Q&A application (app.py): session state and request lifecycle

    A shallow embedding of the Streamlit script [app.py]: the session state,
    the image ingestion helper [process_uploaded_image], the upload handler,
    the "Clear Conversation" handler, the "Ask" handler and the rendering of
    the conversation history, followed by the properties of the design
    document that concern them.

    The script talks to three outside parties: Pillow (decoding and mode
    conversion), the Gemini client ([model.generate_content]) and the clock
    ([time.time], [time.strftime]).  They are taken as parameters, gathered
    in the record [Externals]; every call to one of them is recorded in a
    trace, so that "the remote call is never attempted" or "no retry" are
    statements about that trace. *)

From Stdlib Require Import ZArith QArith List String Ascii Bool Lia.
From Stdlib Require Import DecimalString.
Import ListNotations.

Open Scope Z_scope.

(* ===================================================================== *)
(** ** Python strings *)
(* ===================================================================== *)

(** A Python [str] is a sequence of Unicode code points. *)
Definition pystr := list N.

(** An ASCII literal of the source as a [pystr]. *)
Definition lit (s : string) : pystr :=
  map N_of_ascii (list_ascii_of_string s).

Module Str.

(** [str.isspace] on one code point: the code points CPython treats as
    whitespace, which are the ones [str.strip()] removes. *)
Definition isspace (c : N) : bool :=
  (((9 <=? c) && (c <=? 13)) ||
   ((28 <=? c) && (c <=? 32)) ||
   (c =? 133) || (c =? 160) || (c =? 5760) ||
   ((8192 <=? c) && (c <=? 8202)) ||
   (c =? 8232) || (c =? 8233) || (c =? 8239) || (c =? 8287) ||
   (c =? 12288))%N.

(** [s.lstrip()] *)
Fixpoint lstrip (s : pystr) : pystr :=
  match s with
  | [] => []
  | c :: s' => if isspace c then lstrip s' else s
  end.

(** [s.rstrip()] *)
Definition rstrip (s : pystr) : pystr := rev (lstrip (rev s)).

(** [s.strip()] *)
Definition strip (s : pystr) : pystr := rstrip (lstrip s).

(** Truth value of a string: [bool(s)], false exactly for the empty one. *)
Definition truthy (s : pystr) : bool :=
  match s with [] => false | _ :: _ => true end.

(** [a == b] on strings. *)
Fixpoint eqb (a b : pystr) : bool :=
  match a, b with
  | [], [] => true
  | x :: a', y :: b' => N.eqb x y && eqb a' b'
  | _, _ => false
  end.

(** [str(n)] for an integer, as an f-string renders it. *)
Definition of_int (n : Z) : pystr :=
  lit (NilZero.string_of_int (Z.to_int n)).

End Str.




(* ===================================================================== *)
(** ** Data model *)
(* ===================================================================== *)

(** The result of a call that may raise: the value, or the raised
    exception (an instance of [Exception]) with its message [str(e)]. *)
Inductive py_result (A : Type) : Type :=
| Returns (a : A)
| Raises (msg : pystr).
Arguments Returns {A} a.
Arguments Raises {A} msg.

(** The object [st.file_uploader] returns. *)
Module UploadedFile.
Record t := { name : pystr; size : Z; data : list N }.
End UploadedFile.

(** A Pillow image: its mode (['RGB'], ['L'], ['RGBA'], ['P'], ...), its
    size (width, height) and its pixel data. *)
Module Image.
Record t := { mode : pystr; size : Z * Z; data : list Z }.
End Image.

(** [genai.types.GenerationConfig] *)
Record GenerationConfig := {
  temperature : Q;
  top_k : Z;
  max_output_tokens : Z
}.

(** The response of [model.generate_content]; its [text] accessor raises
    when the response carries no usable part. *)
Record GenerateContentResponse := { text : py_result pystr }.

(** One entry of the conversation history (a dict with these four keys).
    Times are seconds as [time.time] gives them; they are kept as rationals
    (every finite float is one) and the difference is taken exactly. *)
Record ConversationEntry := {
  question : pystr;
  answer : pystr;
  response_time : Q;
  timestamp : pystr
}.

(** [st.session_state], with the three keys the script initialises. *)
Record SessionState := {
  conversation_history : list ConversationEntry;
  current_image : option Image.t;
  current_image_base64 : option pystr
}.

(** Lines 38-43: the state of a fresh session. *)
Definition initial_session_state : SessionState :=
  {| conversation_history := [];
     current_image := None;
     current_image_base64 := None |}.

(** What one run of the script does to the outside, in order: what it
    shows through Streamlit and which outside calls it makes. *)
Inductive Event :=
| st_error (msg : pystr)
| st_warning (msg : pystr)
| st_success (msg : pystr)
| st_info (msg : pystr)
| st_markdown (msg : pystr)
| st_caption (msg : pystr)
| st_subheader (msg : pystr)
| st_expander (title : pystr)
| st_image (img : Image.t) (caption : pystr)
| call_Image_open (f : UploadedFile.t)
| call_convert (img : Image.t) (mode : pystr)
| call_save (img : Image.t) (format : pystr)
| call_generate_content (prompt : pystr) (img : Image.t)
                        (config : GenerationConfig).

(** The outside parties.  The clock is indexed by the number of readings
    made so far in the run. *)
Record Externals := {
  Image_open : UploadedFile.t -> py_result Image.t;
  Image_convert : Image.t -> pystr -> py_result Image.t;
  Image_save : Image.t -> pystr -> py_result (list N);
  b64encode : list N -> pystr;
  generate_content :
    pystr -> Image.t -> GenerationConfig -> py_result GenerateContentResponse;
  time_time : nat -> Q;
  time_strftime : pystr -> nat -> pystr;
  format_f : nat -> Q -> pystr
}.

(** The widget values of one run. *)
Record Inputs := {
  temperature_slider : Q;
  top_k_slider : Z;
  clear_clicked : bool;
  uploaded_file : option UploadedFile.t;
  question_input : pystr;
  ask_clicked : bool
}.

(* ===================================================================== *)
(** ** The script monad *)
(* ===================================================================== *)

(** What a run carries along: the session state, the trace of events and
    the number of clock readings. *)
Record World := {
  session_state : SessionState;
  trace : list Event;
  clock_reads : nat
}.

Definition fresh_world (s : SessionState) : World :=
  {| session_state := s; trace := []; clock_reads := 0 |}.

(** How a piece of the script ends: normally, by an exception that
    [except Exception] catches, or by one of Streamlit's script-control
    exceptions ([st.stop], [st.rerun]), which derive from [BaseException]
    and pass through [except Exception]. *)
Inductive Outcome (A : Type) : Type :=
| Normal (a : A)
| Exception (msg : pystr)
| StopScript
| RerunScript.
Arguments Normal {A} a.
Arguments Exception {A} msg.
Arguments StopScript {A}.
Arguments RerunScript {A}.

Definition M (A : Type) : Type := World -> Outcome A * World.

Definition ret {A} (a : A) : M A := fun w => (Normal a, w).

Definition bind {A B} (c : M A) (k : A -> M B) : M B :=
  fun w =>
    match c w with
    | (Normal a, w') => k a w'
    | (Exception msg, w') => (Exception msg, w')
    | (StopScript, w') => (StopScript, w')
    | (RerunScript, w') => (RerunScript, w')
    end.

Declare Scope script_scope.
Delimit Scope script_scope with script.
Notation "x <- c ;; k" := (bind c (fun x => k))
  (at level 100, c at next level, right associativity) : script_scope.
Notation "c ;; k" := (bind c (fun _ => k))
  (at level 100, right associativity) : script_scope.
Open Scope script_scope.

(** [try: body except Exception as e: handler(str(e))] *)
Definition try_except {A} (body : M A) (handler : pystr -> M A) : M A :=
  fun w =>
    match body w with
    | (Exception msg, w') => handler msg w'
    | r => r
    end.

Definition emit (e : Event) : M unit :=
  fun w => (Normal tt,
            {| session_state := session_state w;
               trace := trace w ++ [e];
               clock_reads := clock_reads w |}).

Definition get_state : M SessionState :=
  fun w => (Normal (session_state w), w).

Definition put_state (s : SessionState) : M unit :=
  fun w => (Normal tt,
            {| session_state := s;
               trace := trace w;
               clock_reads := clock_reads w |}).

(** Lifting the result of an outside call. *)
Definition lift {A} (r : py_result A) : M A :=
  fun w => match r with
           | Returns a => (Normal a, w)
           | Raises msg => (Exception msg, w)
           end.

(** [st.stop()] and [st.rerun()] *)
Definition st_stop {A} : M A := fun w => (StopScript, w).
Definition st_rerun {A} : M A := fun w => (RerunScript, w).

(** [for x in xs: body(x)] *)
Fixpoint for_each {A} (xs : list A) (body : A -> M unit) : M unit :=
  match xs with
  | [] => ret tt
  | x :: xs' => body x ;; for_each xs' body
  end.

(** Assignments to the keys of [st.session_state]. *)
Definition set_conversation_history (h : list ConversationEntry) : M unit :=
  s <- get_state ;;
  put_state {| conversation_history := h;
               current_image := current_image s;
               current_image_base64 := current_image_base64 s |}.

Definition set_current_image (i : option Image.t) : M unit :=
  s <- get_state ;;
  put_state {| conversation_history := conversation_history s;
               current_image := i;
               current_image_base64 := current_image_base64 s |}.

Definition set_current_image_base64 (b : option pystr) : M unit :=
  s <- get_state ;;
  put_state {| conversation_history := conversation_history s;
               current_image := current_image s;
               current_image_base64 := b |}.

(* ===================================================================== *)
(** ** The script *)
(* ===================================================================== *)

(** Line 94: the system prompt, a triple-quoted literal spanning three
    lines (the continuation lines keep their indentation). *)
Definition system_prompt : pystr :=
  lit "You are a helpful AI assistant that can analyze images and answer questions about them. "
  ++ [10%N] ++
  lit "        Be descriptive, accurate, and helpful in your responses. If you can't see something clearly in the image, "
  ++ [10%N] ++
  lit "        please say so rather than guessing.".

(** Line 56: the size limit, [10 * 1024 * 1024]. *)
Definition size_limit : Z := 10 * 1024 * 1024.

(** [st.button(label, disabled=d)]: true in the run that follows a click;
    a disabled button cannot be clicked. *)
Definition st_button (clicked disabled : bool) : bool :=
  clicked && negb disabled.

(** [bool(x)] for a list and for an optional object. *)
Definition nonempty {A} (l : list A) : bool :=
  match l with [] => false | _ :: _ => true end.

Definition is_some {A} (o : option A) : bool :=
  match o with Some _ => true | None => false end.

(** [enumerate(xs)] *)
Fixpoint enumerate_from {A} (i : nat) (xs : list A) : list (nat * A) :=
  match xs with
  | [] => []
  | x :: xs' => (i, x) :: enumerate_from (S i) xs'
  end.

Definition enumerate {A} (xs : list A) : list (nat * A) :=
  enumerate_from 0 xs.

(** Line 211: the title of the expander of the entry met at index [i] of
    the reversed history, [f"Q&A #{len(history) - i} - {entry['timestamp']}"]. *)
Definition entry_ordinal (history : list ConversationEntry) (i : nat) : Z :=
  Z.of_nat (List.length history) - Z.of_nat i.

Definition expander_title (ordinal : Z) (entry : ConversationEntry) : pystr :=
  lit "Q&A #" ++ Str.of_int ordinal ++ lit " - " ++ timestamp entry.

(** Lines 210-211 as a read-only projection: what is shown, top to bottom,
    each entry with the ordinal of its label. *)
Definition history_view (history : list ConversationEntry)
  : list (Z * ConversationEntry) :=
  map (fun '(i, entry) => (entry_ordinal history i, entry))
      (enumerate (rev history)).

(** Lines 161-165: the generation parameters of a request. *)
Definition generation_config_of (temperature : Q) (top_k : Z)
  : GenerationConfig :=
  {| temperature := temperature;
     top_k := top_k;
     max_output_tokens := 1024 |}.

(** Line 168: [f"{system_prompt}\n\nUser Question: {user_question.strip()}"] *)
Definition full_prompt_of (user_question : pystr) : pystr :=
  system_prompt ++ [10%N; 10%N] ++ lit "User Question: "
  ++ Str.strip user_question.

Section Script.

Variable ext : Externals.

(** [time.time()] and [time.strftime(fmt)]: each reads the clock once. *)
Definition time_dot_time : M Q :=
  fun w => (Normal (time_time ext (clock_reads w)),
            {| session_state := session_state w;
               trace := trace w;
               clock_reads := S (clock_reads w) |}).

Definition time_dot_strftime (fmt : pystr) : M pystr :=
  fun w => (Normal (time_strftime ext fmt (clock_reads w)),
            {| session_state := session_state w;
               trace := trace w;
               clock_reads := S (clock_reads w) |}).

(** Lines 46-50 *)
Definition image_to_base64 (image : Image.t) : M pystr :=
  emit (call_save image (lit "JPEG")) ;;
  buffered <- lift (Image_save ext image (lit "JPEG")) ;;
  let img_str := b64encode ext buffered in
  ret img_str.

(** Lines 53-70 *)
Definition process_uploaded_image (uploaded_file : UploadedFile.t)
  : M (option Image.t) :=
  try_except
    (if UploadedFile.size uploaded_file >? size_limit then
       emit (st_error ([10060%N] ++ lit " File size too large. Please upload an image smaller than 10MB.")) ;;
       ret None
     else
       emit (call_Image_open uploaded_file) ;;
       image <- lift (Image_open ext uploaded_file) ;;
       image <- (if negb (Str.eqb (Image.mode image) (lit "RGB")) then
                   emit (call_convert image (lit "RGB")) ;;
                   lift (Image_convert ext image (lit "RGB"))
                 else ret image) ;;
       ret (Some image))
    (fun e =>
       emit (st_error ([10060%N] ++ lit " Error processing image: " ++ e)) ;;
       ret None).

(** Lines 100-104: the "Clear Conversation" button. *)
Definition clear : M unit :=
  set_conversation_history [] ;;
  set_current_image None ;;
  set_current_image_base64 None.

Definition clear_handler (clicked : bool) : M unit :=
  if st_button clicked false then
    clear ;;
    st_rerun
  else ret tt.

(** Lines 119-135: what follows the file uploader. *)
Definition upload_handler (uploaded_file : option UploadedFile.t) : M unit :=
  match uploaded_file with
  | Some uploaded_file =>
      image <- process_uploaded_image uploaded_file ;;
      match image with
      | Some image =>
          set_current_image (Some image) ;;
          b64 <- image_to_base64 image ;;
          set_current_image_base64 (Some b64) ;;
          emit (st_image image (lit "Uploaded Image")) ;;
          emit (st_info
                  ([128202%N] ++ lit " Image Info: "
                   ++ Str.of_int (fst (Image.size image)) ++ lit "x"
                   ++ Str.of_int (snd (Image.size image)) ++ lit " pixels, "
                   ++ format_f ext 1
                        (inject_Z (UploadedFile.size uploaded_file) / 1024)
                   ++ lit " KB"))
      | None =>
          set_current_image None ;;
          set_current_image_base64 None
      end
  | None => ret tt
  end.

(** Line 184: [st.session_state.conversation_history.append(entry)] *)
Definition appendEntry (entry : ConversationEntry) : M unit :=
  s <- get_state ;;
  set_conversation_history (conversation_history s ++ [entry]).

(** Lines 148-204: the "Ask" button and what follows it. *)
Definition ask_handler (inp : Inputs) : M unit :=
  let temperature := temperature_slider inp in
  let top_k := top_k_slider inp in
  let user_question := question_input inp in
  let ask_button :=
    st_button (ask_clicked inp)
              (negb (Str.truthy (Str.strip user_question))) in
  if ask_button && Str.truthy (Str.strip user_question) then
    start_time <- time_dot_time ;;
    try_except
      (s <- get_state ;;
       match current_image s with
       | None =>
           emit (st_warning ([9888%N; 65039%N] ++ lit " No image uploaded. Please upload an image to ask questions about it.")) ;;
           st_stop
       | Some image =>
           let generation_config := generation_config_of temperature top_k in
           let full_prompt := full_prompt_of user_question in
           emit (call_generate_content full_prompt image generation_config) ;;
           response <- lift (generate_content ext full_prompt image
                                              generation_config) ;;
           end_time <- time_dot_time ;;
           let response_time := (end_time - start_time)%Q in
           t <- lift (text response) ;;
           if Str.truthy t then
             ai_response <- lift (text response) ;;
             stamp <- time_dot_strftime (lit "%H:%M:%S") ;;
             appendEntry {| question := Str.strip user_question;
                            answer := ai_response;
                            response_time := response_time;
                            timestamp := stamp |} ;;
             emit (st_success ([9989%N] ++ lit " Response generated successfully!")) ;;
             emit (st_markdown (lit "**AI Response:**")) ;;
             emit (st_markdown ai_response) ;;
             emit (st_caption ([9201%N; 65039%N] ++ lit " Response time: "
                               ++ format_f ext 2 response_time
                               ++ lit " seconds"))
           else
             emit (st_error ([10060%N] ++ lit " No response generated. Please try again."))
       end)
      (fun e =>
         emit (st_error ([10060%N] ++ lit " Error generating response: " ++ e)) ;;
         emit (st_caption (lit "This might be due to API limits, network issues, or content policy violations.")))
  else ret tt.

(** Lines 207-214: the conversation history, newest first. *)
Definition render_history : M unit :=
  s <- get_state ;;
  if nonempty (conversation_history s) then
    emit (st_subheader ([128218%N] ++ lit " Conversation History")) ;;
    for_each (enumerate (rev (conversation_history s)))
      (fun '(i, entry) =>
         emit (st_expander
                 (expander_title
                    (entry_ordinal (conversation_history s) i) entry)) ;;
         emit (st_markdown (lit "**Question:** " ++ question entry)) ;;
         emit (st_markdown (lit "**Answer:** " ++ answer entry)) ;;
         emit (st_caption (lit "Response time: "
                           ++ format_f ext 2 (response_time entry)
                           ++ lit "s")))
  else ret tt.

(** Lines 217-224: footer and instructions. *)
Definition footer : M unit :=
  emit (st_markdown (lit "---")) ;;
  emit (st_markdown (lit "Built with " ++ [10084%N; 65039%N]
                     ++ lit " using Streamlit and Google Gemini AI")) ;;
  s <- get_state ;;
  if negb (is_some (current_image s)) then
    emit (st_info ([128070%N] ++ lit " Please upload an image to get started!"))
  else if negb (nonempty (conversation_history s)) then
    emit (st_info ([128161%N] ++ lit " Ask a question about the uploaded image to begin the conversation!"))
  else ret tt.

(** One run of the script, top to bottom (the static widgets and the
    start-up configuration of the client are left out). *)
Definition script (inp : Inputs) : M unit :=
  clear_handler (clear_clicked inp) ;;
  upload_handler (uploaded_file inp) ;;
  ask_handler inp ;;
  render_history ;;
  footer.

End Script.

(** The session state a run leaves behind, however it ends. *)
Definition run_script (ext : Externals) (inp : Inputs) (s : SessionState)
  : SessionState :=
  session_state (snd (script ext inp (fresh_world s))).

(** The states a session can be in: the fresh one, and what any run
    leaves from one of them. *)
Inductive reachable : SessionState -> Prop :=
| reachable_init : reachable initial_session_state
| reachable_run ext inp s :
    reachable s -> reachable (run_script ext inp s).

(** The outside calls of a trace to the remote model and to the decoder. *)
Definition is_remote_call (e : Event) : bool :=
  match e with call_generate_content _ _ _ => true | _ => false end.

Definition is_decode_call (e : Event) : bool :=
  match e with
  | call_Image_open _ => true
  | call_convert _ _ => true
  | _ => false
  end.

Definition remote_calls (t : list Event) : nat :=
  List.length (filter is_remote_call t).

Definition decode_calls (t : list Event) : nat :=
  List.length (filter is_decode_call t).

(* ===================================================================== *)
(** ** A stubbed environment and sample inputs *)
(* ===================================================================== *)

(** A 2x2 red image, as Pillow decodes it from a JPEG. *)
Definition red_image : Image.t :=
  {| Image.mode := lit "RGB";
     Image.size := (2, 2);
     Image.data := [255; 0; 0; 255; 0; 0; 255; 0; 0; 255; 0; 0] |}.

Definition red_jpeg : UploadedFile.t :=
  {| UploadedFile.name := lit "red.jpg";
     UploadedFile.size := 631;
     UploadedFile.data := [] |}.

(** A decoder that yields [red_image], a converter that only relabels the
    mode, a remote model that answers "The image is red.", and a clock
    that advances by one second at each reading. *)
Definition stub_ext : Externals :=
  {| Image_open := fun _ => Returns red_image;
     Image_convert := fun img m =>
       Returns {| Image.mode := m;
                  Image.size := Image.size img;
                  Image.data := Image.data img |};
     Image_save := fun _ _ => Returns [];
     b64encode := fun _ => [];
     generate_content := fun _ _ _ =>
       Returns {| text := Returns (lit "The image is red.") |};
     time_time := fun n => inject_Z (Z.of_nat n);
     time_strftime := fun _ _ => lit "12:00:00";
     format_f := fun _ _ => [] |}.

Definition idle_inputs : Inputs :=
  {| temperature_slider := 7 # 10;
     top_k_slider := 20;
     clear_clicked := false;
     uploaded_file := None;
     question_input := [];
     ask_clicked := false |}.

Definition ask_inputs (q : pystr) : Inputs :=
  {| temperature_slider := 7 # 10;
     top_k_slider := 20;
     clear_clicked := false;
     uploaded_file := None;
     question_input := q;
     ask_clicked := true |}.

Definition state_with_image : SessionState :=
  {| conversation_history := [];
     current_image := Some red_image;
     current_image_base64 := Some [] |}.

Definition oversized_jpeg : UploadedFile.t :=
  {| UploadedFile.name := lit "big.jpg";
     UploadedFile.size := 10 * 1024 * 1024 + 1;
     UploadedFile.data := [] |}.

Definition ten_mib_jpeg : UploadedFile.t :=
  {| UploadedFile.name := lit "ten.jpg";
     UploadedFile.size := 10 * 1024 * 1024;
     UploadedFile.data := [] |}.

(** A 2x2 grayscale image and an environment whose decoder yields it. *)
Definition gray_image : Image.t :=
  {| Image.mode := lit "L";
     Image.size := (2, 2);
     Image.data := [76; 76; 76; 76] |}.

Definition gray_ext : Externals :=
  {| Image_open := fun _ => Returns gray_image;
     Image_convert := Image_convert stub_ext;
     Image_save := Image_save stub_ext;
     b64encode := b64encode stub_ext;
     generate_content := generate_content stub_ext;
     time_time := time_time stub_ext;
     time_strftime := time_strftime stub_ext;
     format_f := format_f stub_ext |}.


(** An environment whose remote call raises, and one whose remote call
    returns a response with an empty text. *)
Definition failing_ext : Externals :=
  {| Image_open := Image_open stub_ext;
     Image_convert := Image_convert stub_ext;
     Image_save := Image_save stub_ext;
     b64encode := b64encode stub_ext;
     generate_content := fun _ _ _ => Raises (lit "429 quota exceeded");
     time_time := time_time stub_ext;
     time_strftime := time_strftime stub_ext;
     format_f := format_f stub_ext |}.

Definition silent_ext : Externals :=
  {| Image_open := Image_open stub_ext;
     Image_convert := Image_convert stub_ext;
     Image_save := Image_save stub_ext;
     b64encode := b64encode stub_ext;
     generate_content := fun _ _ _ => Returns {| text := Returns [] |};
     time_time := time_time stub_ext;
     time_strftime := time_strftime stub_ext;
     format_f := format_f stub_ext |}.

(** The remote call of a run of the "Ask" handler, and the two ways it
    can fail to give an answer: it raises, or it returns a response whose
    text is empty or cannot be read. *)
Definition remote_result (ext : Externals) (inp : Inputs) (image : Image.t)
  : py_result GenerateContentResponse :=
  generate_content ext (full_prompt_of (question_input inp)) image
    (generation_config_of (temperature_slider inp) (top_k_slider inp)).

Definition remote_call_failed (r : py_result GenerateContentResponse) : Prop :=
  exists msg, r = Raises msg.

Definition empty_response (r : py_result GenerateContentResponse) : Prop :=
  exists response,
    r = Returns response
    /\ (text response = Returns [] \/ exists msg, text response = Raises msg).

(** The warning of line 157. *)
Definition no_image_warning : Event :=
  st_warning ([9888%N; 65039%N] ++ lit " No image uploaded. Please upload an image to ask questions about it.").

(** Events that surface an error to the user. *)
Definition is_error (e : Event) : bool :=
  match e with st_error _ => true | _ => false end.

(** The titles of the expanders a trace shows, in order. *)
Fixpoint expander_titles (t : list Event) : list pystr :=
  match t with
  | [] => []
  | st_expander title :: t' => title :: expander_titles t'
  | _ :: t' => expander_titles t'
  end.

(** A well-formed history entry: the question is non-empty after
    trimming and the answer is non-empty. *)
Definition entry_ok (e : ConversationEntry) : Prop :=
  Str.strip (question e) <> [] /\ answer e <> [].

Definition history_ok (s : SessionState) : Prop :=
  Forall entry_ok (conversation_history s).

(** A piece of the script keeps the history well formed, however it ends. *)
Definition preserves {A} (c : M A) : Prop :=
  forall w, history_ok (session_state w) ->
            history_ok (session_state (snd (c w))).


(* ===================================================================== *)
(** ** Start-up and session initialisation *)
(* ===================================================================== *)

(** The object [genai.GenerativeModel(name)] returns, seen through its
    only method the script uses, [generate_content]. *)
Definition Model : Type :=
  pystr -> Image.t -> GenerationConfig -> py_result GenerateContentResponse.

(** What the start-up code (lines 21-35) asks from outside: the process
    environment and the Gemini client library. *)
Record Startup := {
  os_getenv : pystr -> option pystr;
  genai_configure : option pystr -> py_result unit;
  genai_GenerativeModel : pystr -> py_result Model
}.

(** [bool(x)] for the result of [os.getenv]: [None] and the empty string
    are false. *)
Definition truthy_opt (o : option pystr) : bool :=
  match o with Some s => Str.truthy s | None => false end.

(** The error of line 24. *)
Definition missing_key_error : Event :=
  st_error ([10060%N] ++ lit " GEMINI_API_KEY not found in environment variables. Please check your .env file.").

(** Lines 21-28 *)
Definition configure_gemini (su : Startup) : M Model :=
  let api_key := os_getenv su (lit "GEMINI_API_KEY") in
  (if negb (truthy_opt api_key) then
     emit missing_key_error ;;
     st_stop
   else ret tt) ;;
  lift (genai_configure su api_key) ;;
  lift (genai_GenerativeModel su (lit "gemini-2.0-flash-exp")).

(** Lines 31-35 *)
Definition startup (su : Startup) : M Model :=
  try_except
    (configure_gemini su)
    (fun e =>
       emit (st_error ([10060%N] ++ lit " Failed to configure Gemini API: " ++ e)) ;;
       st_stop).

(** [st.session_state] as a run finds it: each of the three keys is
    present with a value, or missing. *)
Record RawSessionState := {
  raw_conversation_history : option (list ConversationEntry);
  raw_current_image : option (option Image.t);
  raw_current_image_base64 : option (option pystr)
}.

Definition default {A} (o : option A) (d : A) : A :=
  match o with Some a => a | None => d end.

(** Lines 38-43: every missing key is given its start value. *)
Definition init_session_state (raw : RawSessionState) : SessionState :=
  {| conversation_history := default (raw_conversation_history raw) [];
     current_image := default (raw_current_image raw) None;
     current_image_base64 := default (raw_current_image_base64 raw) None |}.

Definition stored (s : SessionState) : RawSessionState :=
  {| raw_conversation_history := Some (conversation_history s);
     raw_current_image := Some (current_image s);
     raw_current_image_base64 := Some (current_image_base64 s) |}.

(** The environment of the script once the model object is known:
    [model.generate_content] is the method of the object start-up made. *)
Definition with_model (ext : Externals) (model : Model) : Externals :=
  {| Image_open := Image_open ext;
     Image_convert := Image_convert ext;
     Image_save := Image_save ext;
     b64encode := b64encode ext;
     generate_content := model;
     time_time := time_time ext;
     time_strftime := time_strftime ext;
     format_f := format_f ext |}.

(** The whole file, top to bottom: start-up, initialisation of the
    session, then the page.  Start-up does not look at the session; when
    it stops the script the session is left as it was found. *)
Definition app (su : Startup) (ext : Externals) (inp : Inputs)
  (raw : RawSessionState) : Outcome unit * RawSessionState * list Event :=
  match startup su (fresh_world initial_session_state) with
  | (Normal model, w0) =>
      let r := script (with_model ext model) inp
                 {| session_state := init_session_state raw;
                    trace := trace w0;
                    clock_reads := clock_reads w0 |} in
      (fst r, stored (session_state (snd r)), trace (snd r))
  | (Exception msg, w0) => (Exception msg, raw, trace w0)
  | (StopScript, w0) => (StopScript, raw, trace w0)
  | (RerunScript, w0) => (RerunScript, raw, trace w0)
  end.

(* ===================================================================== *)
(** ** More sample inputs *)
(* ===================================================================== *)

(** The inputs of a run with another question typed in. *)
Definition with_question (inp : Inputs) (q : pystr) : Inputs :=
  {| temperature_slider := temperature_slider inp;
     top_k_slider := top_k_slider inp;
     clear_clicked := clear_clicked inp;
     uploaded_file := uploaded_file inp;
     question_input := q;
     ask_clicked := ask_clicked inp |}.

(** An environment whose JPEG encoder raises. *)
Definition broken_save_ext : Externals :=
  {| Image_open := Image_open stub_ext;
     Image_convert := Image_convert stub_ext;
     Image_save := fun _ _ => Raises (lit "cannot write mode");
     b64encode := b64encode stub_ext;
     generate_content := generate_content stub_ext;
     time_time := time_time stub_ext;
     time_strftime := time_strftime stub_ext;
     format_f := format_f stub_ext |}.

(** An environment whose converter raises on the grayscale image. *)
Definition broken_convert_ext : Externals :=
  {| Image_open := Image_open gray_ext;
     Image_convert := fun _ _ => Raises (lit "image file is truncated");
     Image_save := Image_save stub_ext;
     b64encode := b64encode stub_ext;
     generate_content := generate_content stub_ext;
     time_time := time_time stub_ext;
     time_strftime := time_strftime stub_ext;
     format_f := format_f stub_ext |}.

Definition upload_inputs (f : UploadedFile.t) : Inputs :=
  {| temperature_slider := 7 # 10;
     top_k_slider := 20;
     clear_clicked := false;
     uploaded_file := Some f;
     question_input := [];
     ask_clicked := false |}.

(** A start-up environment with a key, and one without. *)
Definition stub_startup : Startup :=
  {| os_getenv := fun _ => Some (lit "secret");
     genai_configure := fun _ => Returns tt;
     genai_GenerativeModel := fun _ => Returns (generate_content stub_ext) |}.

Definition keyless_startup : Startup :=
  {| os_getenv := fun _ => None;
     genai_configure := fun _ => Returns tt;
     genai_GenerativeModel := fun _ => Returns (generate_content stub_ext) |}.

(** The request event of a run of the "Ask" handler, and the entry it
    records for a response text [t] when started with [n] clock readings
    already made. *)
Definition ask_request (inp : Inputs) (image : Image.t) : Event :=
  call_generate_content
    (full_prompt_of (question_input inp)) image
    (generation_config_of (temperature_slider inp) (top_k_slider inp)).

Definition recorded_entry (ext : Externals) (inp : Inputs) (n : nat)
  (t : pystr) : ConversationEntry :=
  {| question := Str.strip (question_input inp);
     answer := t;
     response_time := (time_time ext (S n) - time_time ext n)%Q;
     timestamp := time_strftime ext (lit "%H:%M:%S") (S (S n)) |}.

(** The error shown when the remote call or the reading of its text
    raises (lines 203-204), and the one shown for an empty text
    (line 200). *)
Definition remote_error_events (msg : pystr) : list Event :=
  [st_error ([10060%N] ++ lit " Error generating response: " ++ msg);
   st_caption (lit "This might be due to API limits, network issues, or content policy violations.")].

Definition no_response_error : Event :=
  st_error ([10060%N] ++ lit " No response generated. Please try again.").

(** What is shown after a recorded answer (lines 192-197). *)
Definition answer_events (ext : Externals) (e : ConversationEntry)
  : list Event :=
  [st_success ([9989%N] ++ lit " Response generated successfully!");
   st_markdown (lit "**AI Response:**");
   st_markdown (answer e);
   st_caption ([9201%N; 65039%N] ++ lit " Response time: "
               ++ format_f ext 2 (response_time e) ++ lit " seconds")].

(** A session never holds a base64 copy without an image. *)
Definition base64_needs_image (s : SessionState) : Prop :=
  current_image s = None -> current_image_base64 s = None.

(** A run with the red JPEG in the uploader and "Ask" clicked. *)
Definition upload_and_ask_inputs : Inputs :=
  {| temperature_slider := 7 # 10;
     top_k_slider := 20;
     clear_clicked := false;
     uploaded_file := Some red_jpeg;
     question_input := lit "What color?";
     ask_clicked := true |}.

(** A session holding the grayscale image. *)
Definition state_with_gray_image : SessionState :=
  {| conversation_history := [];
     current_image := Some gray_image;
     current_image_base64 := Some [] |}.

(* ===================================================================== *)
(** ** Failures a run reports *)
(* ===================================================================== *)

(** The events by which the script reports a failure to the user:
    [st.error] and [st.warning]. *)
Definition is_failure_report (e : Event) : bool :=
  match e with
  | st_error _ => true
  | st_warning _ => true
  | _ => false
  end.

(** A run of the "Ask" handler fails when it does not end normally or
    when it reports a failure (the trace it starts from being empty). *)
Definition ask_fails (ext : Externals) (inp : Inputs) (w : World) : Prop :=
  fst (ask_handler ext inp w) <> Normal tt
  \/ existsb is_failure_report (trace (snd (ask_handler ext inp w))) = true.

(* ===================================================================== *)
(** ** Sample runs *)
(* ===================================================================== *)

Example strip_blank : Str.strip (lit "   ") = [].
Proof. reflexivity. Qed.

Example strip_question :
  Str.strip (lit "  What color? ") = lit "What color?".
Proof. reflexivity. Qed.

Example of_int_3 : Str.of_int 3 = lit "3".
Proof. reflexivity. Qed.

(** The scenario of the design document: upload the red JPEG, then ask. *)
Example scenario_upload :
  run_script stub_ext
    {| temperature_slider := 7 # 10; top_k_slider := 20;
       clear_clicked := false; uploaded_file := Some red_jpeg;
       question_input := []; ask_clicked := false |}
    initial_session_state
  = state_with_image.
Proof. reflexivity. Qed.

Example scenario_ask :
  conversation_history
    (run_script stub_ext (ask_inputs (lit "What color?")) state_with_image)
  = [ {| question := lit "What color?";
         answer := lit "The image is red.";
         response_time := (inject_Z 1 - inject_Z 0)%Q;
         timestamp := lit "12:00:00" |} ].
Proof. reflexivity. Qed.

(* ===================================================================== *)
(** ** Lemmas on strings *)
(* ===================================================================== *)

Lemma eqb_eq (a b : pystr) : Str.eqb a b = true <-> a = b.
Proof.
  revert b; induction a as [|x a IH]; intros [|y b]; simpl;
    try (split; [discriminate | congruence]); [tauto|].
  rewrite andb_true_iff, N.eqb_eq, IH.
  split; [intros [-> ->]; reflexivity | intros E; inversion E; auto].
Qed.

Lemma eqb_neq (a b : pystr) : Str.eqb a b = false <-> a <> b.
Proof.
  rewrite <- eqb_eq. destruct (Str.eqb a b); split; congruence.
Qed.

Lemma truthy_true (s : pystr) : Str.truthy s = true <-> s <> [].
Proof. destruct s; simpl; split; congruence. Qed.

Lemma truthy_false (s : pystr) : Str.truthy s = false <-> s = [].
Proof. destruct s; simpl; split; congruence. Qed.

Lemma lstrip_blank (s : pystr) :
  forallb Str.isspace s = true -> Str.lstrip s = [].
Proof.
  induction s as [|c s IH]; simpl; [reflexivity|].
  intros H. apply andb_true_iff in H as [Hc Hs]. rewrite Hc. auto.
Qed.

Lemma lstrip_nil_blank (s : pystr) :
  Str.lstrip s = [] -> forallb Str.isspace s = true.
Proof.
  induction s as [|c s IH]; simpl; [reflexivity|].
  destruct (Str.isspace c); [auto | discriminate].
Qed.

(** What [lstrip] leaves starts with a character that is not a space. *)
Lemma lstrip_head (s : pystr) c t :
  Str.lstrip s = c :: t -> Str.isspace c = false.
Proof.
  induction s as [|x s IH]; simpl; [discriminate|].
  destruct (Str.isspace x) eqn:E; [auto|].
  intros H; inversion H; subst; assumption.
Qed.

Lemma lstrip_fixed c t :
  Str.isspace c = false -> Str.lstrip (c :: t) = c :: t.
Proof. intros H; simpl; rewrite H; reflexivity. Qed.

Lemma lstrip_idem (s : pystr) : Str.lstrip (Str.lstrip s) = Str.lstrip s.
Proof.
  destruct (Str.lstrip s) as [|c t] eqn:E; [reflexivity|].
  apply lstrip_fixed. eapply lstrip_head; eassumption.
Qed.

Lemma lstrip_snoc (u : pystr) c :
  Str.isspace c = false -> Str.lstrip (u ++ [c]) = Str.lstrip u ++ [c].
Proof.
  intros Hc. induction u as [|x u IH]; simpl.
  - rewrite Hc; reflexivity.
  - destruct (Str.isspace x); [assumption | reflexivity].
Qed.

Lemma rstrip_cons c t :
  Str.isspace c = false -> Str.rstrip (c :: t) = c :: Str.rstrip t.
Proof.
  intros Hc. unfold Str.rstrip. simpl.
  rewrite lstrip_snoc by assumption.
  rewrite rev_app_distr. reflexivity.
Qed.

Lemma rstrip_idem (s : pystr) : Str.rstrip (Str.rstrip s) = Str.rstrip s.
Proof.
  unfold Str.rstrip. rewrite rev_involutive, lstrip_idem. reflexivity.
Qed.

(** Trimming twice is trimming once. *)
Lemma strip_idem (s : pystr) : Str.strip (Str.strip s) = Str.strip s.
Proof.
  unfold Str.strip.
  destruct (Str.lstrip s) as [|c t] eqn:E; [reflexivity|].
  pose proof (lstrip_head _ _ _ E) as Hc.
  rewrite (rstrip_cons _ _ Hc), (lstrip_fixed _ _ Hc).
  rewrite <- (rstrip_cons _ _ Hc). apply rstrip_idem.
Qed.

(** A question made of whitespace only (the empty one included) trims to
    the empty string, and only such a question does. *)
Lemma strip_blank_iff (s : pystr) :
  Str.strip s = [] <-> forallb Str.isspace s = true.
Proof.
  unfold Str.strip. split.
  - intros H. destruct (Str.lstrip s) as [|c t] eqn:E.
    + apply lstrip_nil_blank; assumption.
    + rewrite (rstrip_cons _ _ (lstrip_head _ _ _ E)) in H. discriminate.
  - intros H. rewrite (lstrip_blank _ H). reflexivity.
Qed.

(* ===================================================================== *)
(** ** Lemmas on the history view *)
(* ===================================================================== *)

Lemma enumerate_from_snoc {A} (l : list A) (x : A) (j : nat) :
  enumerate_from j (l ++ [x])
  = enumerate_from j l ++ [((j + List.length l)%nat, x)].
Proof.
  revert j; induction l as [|y l IH]; intros j; simpl.
  - rewrite Nat.add_0_r; reflexivity.
  - rewrite IH. replace (S j + List.length l)%nat
      with (j + S (List.length l))%nat by lia. reflexivity.
Qed.

Lemma enumerate_from_S {A} (l : list A) (j : nat) :
  enumerate_from (S j) l = map (fun '(i, x) => (S i, x)) (enumerate_from j l).
Proof.
  revert j; induction l as [|y l IH]; intros j; simpl; [reflexivity|].
  rewrite IH; reflexivity.
Qed.

Lemma enumerate_from_snd {A} (l : list A) (j : nat) :
  map snd (enumerate_from j l) = l.
Proof.
  revert j; induction l as [|y l IH]; intros j; simpl; [reflexivity|].
  rewrite IH; reflexivity.
Qed.

(** The view numbers the entries by their 1-based place in the history
    and shows them last to first. *)
Lemma history_view_chronological (h : list ConversationEntry) :
  history_view h
  = rev (map (fun '(i, entry) => (Z.of_nat i + 1, entry)) (enumerate h)).
Proof.
  induction h as [|x h IH] using rev_ind; [reflexivity|].
  unfold history_view, enumerate in *.
  rewrite rev_unit, enumerate_from_snoc, map_app. cbn [map enumerate_from].
  rewrite rev_unit. f_equal.
  - unfold entry_ordinal. rewrite length_app. simpl. f_equal. lia.
  - rewrite <- IH, enumerate_from_S, map_map.
    apply map_ext. intros [i e]. unfold entry_ordinal.
    rewrite length_app. simpl. f_equal. lia.
Qed.

Lemma history_view_entries (h : list ConversationEntry) :
  map snd (history_view h) = rev h.
Proof.
  unfold history_view, enumerate. rewrite map_map.
  rewrite <- (enumerate_from_snd (rev h) 0) at 2.
  apply map_ext. intros [i e]. reflexivity.
Qed.

(* ===================================================================== *)
(** ** Image ingestion *)
(* ===================================================================== *)

Lemma bind_normal {A B} (c : M A) (k : A -> M B) w a w' :
  c w = (Normal a, w') -> bind c k w = k a w'.
Proof. intros E. unfold bind. rewrite E. reflexivity. Qed.

Ltac run_script_step :=
  cbv beta iota delta
    [bind ret emit lift try_except get_state put_state st_stop st_rerun
     set_conversation_history set_current_image set_current_image_base64];
  cbn [session_state trace clock_reads fst snd
       conversation_history current_image current_image_base64].

(** [process_uploaded_image] catches every exception, and it leaves the
    session state and the clock alone: it only adds events. *)
Lemma process_uploaded_image_frame ext f w :
  exists r evs,
    process_uploaded_image ext f w
    = (Normal r,
       {| session_state := session_state w;
          trace := trace w ++ evs;
          clock_reads := clock_reads w |}).
Proof.
  unfold process_uploaded_image.
  destruct (UploadedFile.size f >? size_limit); run_script_step.
  { eexists _, [_]. reflexivity. }
  destruct (Image_open ext f) as [img|msg]; run_script_step.
  2:{ exists None. eexists [_; _]. rewrite <- app_assoc. reflexivity. }
  destruct (negb (Str.eqb (Image.mode img) (lit "RGB"))); run_script_step.
  2:{ eexists _, [_]. reflexivity. }
  destruct (Image_convert ext img (lit "RGB")) as [img'|msg]; run_script_step.
  - eexists _, [_; _]. rewrite <- app_assoc. reflexivity.
  - exists None. eexists [_; _; _]. rewrite <- !app_assoc. reflexivity.
Qed.



(** A decode error is an ingestion failure too: when [Image.open] raises,
    the helper reports it and returns [None]. *)
Lemma decode_error_returns_none ext f w msg :
  UploadedFile.size f <= 10 * 1024 * 1024 ->
  Image_open ext f = Raises msg ->
  process_uploaded_image ext f w
  = (Normal None,
     {| session_state := session_state w;
        trace := (trace w ++ [call_Image_open f]) ++
                 [st_error ([10060%N] ++ lit " Error processing image: " ++ msg)];
        clock_reads := clock_reads w |}).
Proof.
  intros Hsize Hopen. unfold process_uploaded_image.
  replace (UploadedFile.size f >? size_limit) with false
    by (symmetry; rewrite Z.gtb_ltb; apply Z.ltb_ge; unfold size_limit; lia).
  run_script_step. rewrite Hopen. reflexivity.
Qed.

(** C1, as stated, fails: with the red image in the session, uploading a
    file above the size limit makes ingestion return [None], and the
    upload handler then sets [current_image] to [None], which is not the
    value it had before. *)
Lemma failed_upload_drops_current_image :
  fst (process_uploaded_image stub_ext oversized_jpeg
         (fresh_world state_with_image)) = Normal None
  /\ current_image
       (session_state
          (snd (upload_handler stub_ext (Some oversized_jpeg)
                  (fresh_world state_with_image)))) = None
  /\ current_image
       (session_state
          (snd (upload_handler stub_ext (Some oversized_jpeg)
                  (fresh_world state_with_image))))
     <> current_image state_with_image.
Proof. repeat split; try reflexivity. discriminate. Qed.

(** C1 (amended): when ingestion of an upload fails, that is
    [process_uploaded_image] returns [None], the upload handler ends
    normally, leaves [conversation_history] as it was and sets both
    [current_image] and [current_image_base64] to [None]. *)
Theorem failed_upload_state ext f w :
  fst (process_uploaded_image ext f w) = Normal None ->
  let w' := snd (upload_handler ext (Some f) w) in
  fst (upload_handler ext (Some f) w) = Normal tt
  /\ conversation_history (session_state w')
     = conversation_history (session_state w)
  /\ current_image (session_state w') = None
  /\ current_image_base64 (session_state w') = None.
Proof.
  intros H w'. subst w'. unfold upload_handler.
  destruct (process_uploaded_image_frame ext f w) as (r & evs & E).
  rewrite E in H. simpl in H. inversion H; subst r.
  rewrite (bind_normal _ _ _ _ _ E). run_script_step.
  repeat split; reflexivity.
Qed.

Lemma failed_upload_state_witness :
  let w := fresh_world state_with_image in
  let w' := snd (upload_handler stub_ext (Some oversized_jpeg) w) in
  fst (upload_handler stub_ext (Some oversized_jpeg) w) = Normal tt
  /\ conversation_history (session_state w')
     = conversation_history (session_state w)
  /\ current_image (session_state w') = None
  /\ current_image_base64 (session_state w') = None.
Proof.
  apply (failed_upload_state stub_ext oversized_jpeg
           (fresh_world state_with_image)).
  reflexivity.
Defined.

(** C2, as stated, fails at the boundary: a file of exactly 10 MiB passes
    the size test, [Image.open] is called on it and the image comes back. *)
Lemma ten_mib_is_decoded :
  UploadedFile.size ten_mib_jpeg >= 10 * 1024 * 1024
  /\ process_uploaded_image stub_ext ten_mib_jpeg
       (fresh_world initial_session_state)
     = (Normal (Some red_image),
        {| session_state := initial_session_state;
           trace := [call_Image_open ten_mib_jpeg];
           clock_reads := 0 |})
  /\ decode_calls
       (trace (snd (process_uploaded_image stub_ext ten_mib_jpeg
                      (fresh_world initial_session_state)))) = 1%nat.
Proof. repeat split; try reflexivity. vm_compute. discriminate. Qed.

(** C2 (amended): for every upload whose declared size is strictly above
    10 MiB, [process_uploaded_image] reports "File size too large",
    returns [None] and makes no call to the decoder. *)
Theorem oversized_upload_rejected ext f w :
  UploadedFile.size f > 10 * 1024 * 1024 ->
  process_uploaded_image ext f w
  = (Normal None,
     {| session_state := session_state w;
        trace := trace w ++
                 [st_error ([10060%N] ++ lit " File size too large. Please upload an image smaller than 10MB.")];
        clock_reads := clock_reads w |})
  /\ decode_calls (trace (snd (process_uploaded_image ext f w)))
     = decode_calls (trace w).
Proof.
  intros H. unfold process_uploaded_image.
  replace (UploadedFile.size f >? size_limit) with true
    by (symmetry; apply Z.gtb_lt; unfold size_limit; lia).
  run_script_step. split; [reflexivity|].
  unfold decode_calls. rewrite filter_app, length_app. simpl. lia.
Qed.

Lemma oversized_upload_rejected_witness :
  process_uploaded_image stub_ext oversized_jpeg
    (fresh_world initial_session_state)
  = (Normal None,
     {| session_state := initial_session_state;
        trace := [st_error ([10060%N] ++ lit " File size too large. Please upload an image smaller than 10MB.")];
        clock_reads := 0 |})
  /\ decode_calls
       (trace (snd (process_uploaded_image stub_ext oversized_jpeg
                      (fresh_world initial_session_state)))) = 0%nat.
Proof.
  apply (oversized_upload_rejected stub_ext oversized_jpeg
           (fresh_world initial_session_state)).
  vm_compute. reflexivity.
Defined.




(* ===================================================================== *)
(** ** The "Ask" handler *)
(* ===================================================================== *)

Ltac run_ask_step :=
  cbv beta iota delta [time_dot_time time_dot_strftime appendEntry];
  run_script_step.

(** The test of line 150 passes exactly when the button was clicked and
    the question does not trim to the empty string. *)
Lemma ask_guard inp :
  st_button (ask_clicked inp)
            (negb (Str.truthy (Str.strip (question_input inp))))
  && Str.truthy (Str.strip (question_input inp))
  = ask_clicked inp && Str.truthy (Str.strip (question_input inp)).
Proof.
  unfold st_button.
  destruct (ask_clicked inp), (Str.truthy (Str.strip (question_input inp)));
    reflexivity.
Qed.

Lemma remote_calls_app t u :
  remote_calls (t ++ u) = (remote_calls t + remote_calls u)%nat.
Proof. unfold remote_calls. rewrite filter_app, length_app. reflexivity. Qed.




(** C4: for every question that is non-empty after trimming, asking
    while [current_image] is absent shows the "No image uploaded" warning
    and stops the script; the remote model is not called and the
    session state, hence the length of the history, is unchanged. *)
Theorem ask_without_image ext inp w :
  ask_clicked inp = true ->
  Str.strip (question_input inp) <> [] ->
  current_image (session_state w) = None ->
  ask_handler ext inp w
  = (StopScript,
     {| session_state := session_state w;
        trace := trace w ++ [no_image_warning];
        clock_reads := S (clock_reads w) |})
  /\ remote_calls (trace (snd (ask_handler ext inp w)))
     = remote_calls (trace w)
  /\ List.length
       (conversation_history (session_state (snd (ask_handler ext inp w))))
     = List.length (conversation_history (session_state w)).
Proof.
  intros Hc Hq Hi. apply truthy_true in Hq.
  unfold ask_handler. rewrite ask_guard, Hc, Hq. cbn [andb].
  run_ask_step. rewrite Hi. run_ask_step.
  repeat split; try reflexivity.
  rewrite remote_calls_app. unfold remote_calls at 2. simpl. lia.
Qed.

Lemma ask_without_image_witness :
  ask_handler stub_ext (ask_inputs (lit "What color?"))
    (fresh_world initial_session_state)
  = (StopScript,
     {| session_state := initial_session_state;
        trace := [no_image_warning];
        clock_reads := 1 |})
  /\ remote_calls
       (trace (snd (ask_handler stub_ext (ask_inputs (lit "What color?"))
                      (fresh_world initial_session_state)))) = 0%nat
  /\ List.length
       (conversation_history
          (session_state
             (snd (ask_handler stub_ext (ask_inputs (lit "What color?"))
                     (fresh_world initial_session_state))))) = 0%nat.
Proof.
  apply (ask_without_image stub_ext (ask_inputs (lit "What color?"))
           (fresh_world initial_session_state)).
  - reflexivity.
  - vm_compute. discriminate.
  - reflexivity.
Defined.

(** C5, as stated, fails: asking with the question "   " is not a
    failure.  The handler ends normally and reports nothing, exactly as
    when the button is not clicked at all; asking without an image, by
    contrast, is a failure the handler does report. *)
Lemma blank_question_is_not_a_failure :
  forallb Str.isspace (lit "   ") = true
  /\ ~ ask_fails stub_ext (ask_inputs (lit "   "))
        (fresh_world state_with_image)
  /\ ask_handler stub_ext (ask_inputs (lit "   "))
       (fresh_world state_with_image)
     = (Normal tt, fresh_world state_with_image)
  /\ ask_handler stub_ext (ask_inputs (lit "   "))
       (fresh_world state_with_image)
     = ask_handler stub_ext (with_question idle_inputs (lit "   "))
         (fresh_world state_with_image)
  /\ ask_fails stub_ext (ask_inputs (lit "What color?"))
       (fresh_world initial_session_state).
Proof.
  split; [reflexivity|]. split.
  - intros [H|H]; [apply H; reflexivity | discriminate H].
  - split; [reflexivity|]. split; [reflexivity|].
    left. discriminate.
Qed.

(** C5 (amended): for every session state (whatever the image) and every
    value of the sliders, asking with a question that is empty or made of
    whitespace only is ignored by the test of line 150: the handler ends
    normally with the world as it was, so nothing is raised or shown, no
    remote call is made and no history entry is created. *)
Theorem ask_blank_question ext inp w :
  forallb Str.isspace (question_input inp) = true ->
  Str.strip (question_input inp) = []
  /\ ask_handler ext inp w = (Normal tt, w)
  /\ remote_calls (trace (snd (ask_handler ext inp w)))
     = remote_calls (trace w)
  /\ conversation_history (session_state (snd (ask_handler ext inp w)))
     = conversation_history (session_state w).
Proof.
  intros H. apply strip_blank_iff in H.
  assert (E : ask_handler ext inp w = (Normal tt, w)).
  { unfold ask_handler. rewrite ask_guard, H. cbn [Str.truthy].
    rewrite andb_false_r. reflexivity. }
  rewrite E. repeat split; auto.
Qed.

Lemma ask_blank_question_witness :
  Str.strip (question_input (ask_inputs (lit "   "))) = []
  /\ ask_handler stub_ext (ask_inputs (lit "   "))
       (fresh_world state_with_image)
     = (Normal tt, fresh_world state_with_image)
  /\ remote_calls
       (trace (snd (ask_handler stub_ext (ask_inputs (lit "   "))
                      (fresh_world state_with_image))))
     = remote_calls (trace (fresh_world state_with_image))
  /\ conversation_history
       (session_state
          (snd (ask_handler stub_ext (ask_inputs (lit "   "))
                  (fresh_world state_with_image))))
     = conversation_history (session_state (fresh_world state_with_image)).
Proof.
  apply (ask_blank_question stub_ext (ask_inputs (lit "   "))
           (fresh_world state_with_image)).
  reflexivity.
Defined.

(** C6: when the remote call raises, or returns a response whose text
    is empty or cannot be read, the "Ask" handler shows an error and ends
    normally; the session state is unchanged (no entry is appended) and
    the remote model was called exactly once (no retry). *)
Theorem failed_ask_leaves_state ext inp w image :
  ask_clicked inp = true ->
  Str.strip (question_input inp) <> [] ->
  current_image (session_state w) = Some image ->
  remote_call_failed (remote_result ext inp image)
  \/ empty_response (remote_result ext inp image) ->
  let w' := snd (ask_handler ext inp w) in
  fst (ask_handler ext inp w) = Normal tt
  /\ session_state w' = session_state w
  /\ remote_calls (trace w') = S (remote_calls (trace w))
  /\ existsb is_error (trace w') = true.
Proof.
  intros Hc Hq Hi Hr w'. subst w'. apply truthy_true in Hq.
  unfold ask_handler. rewrite ask_guard, Hc, Hq. cbn [andb].
  unfold remote_result in Hr.
  run_ask_step. rewrite Hi. run_ask_step.
  destruct Hr as [[msg Hr] | (response & Hr & [Ht | [msg Ht]])];
    rewrite Hr; run_ask_step;
    try (rewrite Ht; cbn [Str.truthy]; run_ask_step);
    (split; [reflexivity|]); (split; [reflexivity|]);
    rewrite !remote_calls_app, !existsb_app; cbn;
    rewrite ?orb_true_r; split; (lia || reflexivity).
Qed.

Lemma failed_ask_leaves_state_witness :
  let w := fresh_world state_with_image in
  let w' := snd (ask_handler failing_ext (ask_inputs (lit "What color?")) w) in
  fst (ask_handler failing_ext (ask_inputs (lit "What color?")) w) = Normal tt
  /\ session_state w' = session_state w
  /\ remote_calls (trace w') = S (remote_calls (trace w))
  /\ existsb is_error (trace w') = true.
Proof.
  apply (failed_ask_leaves_state failing_ext (ask_inputs (lit "What color?"))
           (fresh_world state_with_image) red_image).
  - reflexivity.
  - vm_compute. discriminate.
  - reflexivity.
  - left. eexists. reflexivity.
Defined.

Example empty_response_run :
  ask_handler silent_ext (ask_inputs (lit "What color?"))
    (fresh_world state_with_image)
  = (Normal tt,
     {| session_state := state_with_image;
        trace :=
          [call_generate_content (full_prompt_of (lit "What color?"))
             red_image (generation_config_of (7 # 10) 20);
           st_error ([10060%N] ++ lit " No response generated. Please try again.")];
        clock_reads := 2 |}).
Proof. reflexivity. Qed.

(* ===================================================================== *)
(** ** History rendering *)
(* ===================================================================== *)

Lemma expander_titles_app t u :
  expander_titles (t ++ u) = expander_titles t ++ expander_titles u.
Proof.
  induction t as [|e t IH]; simpl; [reflexivity|].
  destruct e; simpl; rewrite IH; reflexivity.
Qed.

(** The loop of lines 210-214 adds one expander per listed entry, in the
    order of the list, and changes nothing else. *)
Lemma render_loop ext h l w :
  let body := fun '(i, entry) =>
    (emit (st_expander (expander_title (entry_ordinal h i) entry)) ;;
     emit (st_markdown (lit "**Question:** " ++ question entry)) ;;
     emit (st_markdown (lit "**Answer:** " ++ answer entry)) ;;
     emit (st_caption (lit "Response time: "
                       ++ format_f ext 2 (response_time entry)
                       ++ lit "s"))) in
  fst (for_each l body w) = Normal tt
  /\ session_state (snd (for_each l body w)) = session_state w
  /\ expander_titles (trace (snd (for_each l body w)))
     = expander_titles (trace w)
       ++ map (fun '(i, entry) => expander_title (entry_ordinal h i) entry) l.
Proof.
  intros body. revert w. induction l as [|[i e] l IH]; intros w.
  - simpl. rewrite app_nil_r. auto.
  - cbn [for_each]. unfold bind at 1. cbn [body].
    run_script_step.
    match goal with |- context [for_each l body ?w1] =>
      destruct (IH w1) as (H1 & H2 & H3) end.
    rewrite H1, H2, H3. cbn [session_state trace].
    repeat split; try reflexivity.
    rewrite !expander_titles_app. cbn [expander_titles map].
    rewrite !app_nil_r. cbn [app]. rewrite <- app_assoc. reflexivity.
Qed.

(** C7: the history is shown newest first and each entry is labelled with
    its 1-based place in the order of insertion: the view is the reversal
    of the numbered history, the expanders of a run carry exactly these
    labels in this order, and for entries inserted as [E1, E2, E3] the
    view is [E3, E2, E1] with the labels #3, #2, #1. *)
Theorem history_newest_first :
  (forall h,
      history_view h
      = rev (map (fun '(i, entry) => (Z.of_nat i + 1, entry)) (enumerate h)))
  /\ (forall h, map snd (history_view h) = rev h)
  /\ (forall ext s,
         expander_titles (trace (snd (render_history ext (fresh_world s))))
         = map (fun '(n, entry) => expander_title n entry)
               (history_view (conversation_history s)))
  /\ (forall E1 E2 E3,
         history_view [E1; E2; E3] = [(3, E3); (2, E2); (1, E1)]
         /\ map (fun '(n, entry) => expander_title n entry)
                (history_view [E1; E2; E3])
            = [lit "Q&A #3 - " ++ timestamp E3;
               lit "Q&A #2 - " ++ timestamp E2;
               lit "Q&A #1 - " ++ timestamp E1]).
Proof.
  split; [exact history_view_chronological|].
  split; [exact history_view_entries|].
  split; [|intros; split; reflexivity].
  intros ext s. unfold render_history, fresh_world. run_script_step.
  destruct (conversation_history s) as [|e h] eqn:E; [reflexivity|].
  cbn [nonempty]. run_script_step.
  match goal with |- context [for_each ?l ?b ?w1] =>
    destruct (render_loop ext (e :: h) l w1) as (_ & _ & H3) end.
  etransitivity; [exact H3|]. cbn [trace app expander_titles].
  unfold history_view. rewrite map_map.
  apply map_ext. intros [i x]. reflexivity.
Qed.

(* ===================================================================== *)
(** ** Clearing the conversation *)
(* ===================================================================== *)

(** C8: [clear] always ends normally and leaves an empty history and no
    image, whatever the state before; clearing twice is clearing once;
    appending an entry and then clearing leaves the history empty and the
    image absent; the button handler clears and asks for a rerun. *)
Theorem clear_resets_session :
  (forall w,
      clear w
      = (Normal tt,
         {| session_state := initial_session_state;
            trace := trace w;
            clock_reads := clock_reads w |}))
  /\ (forall w, snd (clear (snd (clear w))) = snd (clear w))
  /\ (forall entry w,
         fst ((appendEntry entry ;; clear) w) = Normal tt
         /\ conversation_history
              (session_state (snd ((appendEntry entry ;; clear) w))) = []
         /\ current_image
              (session_state (snd ((appendEntry entry ;; clear) w))) = None)
  /\ (forall w,
         session_state (snd (clear_handler true w)) = initial_session_state).
Proof.
  repeat split; reflexivity.
Qed.

(* ===================================================================== *)
(** ** The history invariant *)
(* ===================================================================== *)

Create HintDb preserves.

Lemma preserves_ret {A} (a : A) : preserves (ret a).
Proof. intros w H. exact H. Qed.

Lemma preserves_bind {A B} (c : M A) (k : A -> M B) :
  preserves c -> (forall a, preserves (k a)) -> preserves (bind c k).
Proof.
  intros Hc Hk w H. specialize (Hc w H). unfold bind.
  destruct (c w) as [[a| | |] w1]; cbn [snd] in *; auto.
  apply Hk; assumption.
Qed.

(** After an outside call, the rest runs on the value it returned. *)
Lemma preserves_bind_lift {A B} (r : py_result A) (k : A -> M B) :
  (forall a, r = Returns a -> preserves (k a)) -> preserves (bind (lift r) k).
Proof.
  intros Hk w H. unfold bind, lift. destruct r as [a|msg]; cbn [snd]; auto.
  apply (Hk a eq_refl); assumption.
Qed.

Lemma preserves_try_except {A} (body : M A) handler :
  preserves body -> (forall e, preserves (handler e)) ->
  preserves (try_except body handler).
Proof.
  intros Hb Hh w H. specialize (Hb w H). unfold try_except.
  destruct (body w) as [[a| | |] w1]; cbn [snd] in *; auto.
  apply Hh; assumption.
Qed.

Lemma preserves_emit e : preserves (emit e).
Proof. intros w H. exact H. Qed.

Lemma preserves_lift {A} (r : py_result A) : preserves (lift r).
Proof. intros w H. destruct r; exact H. Qed.

Lemma preserves_get_state : preserves get_state.
Proof. intros w H. exact H. Qed.

Lemma preserves_st_stop {A} : preserves (@st_stop A).
Proof. intros w H. exact H. Qed.

Lemma preserves_st_rerun {A} : preserves (@st_rerun A).
Proof. intros w H. exact H. Qed.

Lemma preserves_time ext : preserves (time_dot_time ext).
Proof. intros w H. exact H. Qed.

Lemma preserves_strftime ext fmt : preserves (time_dot_strftime ext fmt).
Proof. intros w H. exact H. Qed.

Lemma preserves_set_current_image i : preserves (set_current_image i).
Proof. intros w H. exact H. Qed.

Lemma preserves_set_current_image_base64 b :
  preserves (set_current_image_base64 b).
Proof. intros w H. exact H. Qed.

Lemma preserves_set_history_nil : preserves (set_conversation_history []).
Proof. intros w H. constructor. Qed.

Lemma preserves_appendEntry entry :
  entry_ok entry -> preserves (appendEntry entry).
Proof.
  intros He w H. unfold history_ok in *. cbn.
  apply Forall_app. split; [exact H | constructor; [exact He | constructor]].
Qed.

Lemma preserves_for_each {A} (xs : list A) body :
  (forall x, preserves (body x)) -> preserves (for_each xs body).
Proof.
  intros Hb. induction xs as [|x xs IH]; cbn [for_each].
  - apply preserves_ret.
  - apply preserves_bind; auto.
Qed.

#[local] Hint Resolve preserves_ret preserves_emit preserves_lift
  preserves_get_state preserves_st_stop preserves_st_rerun preserves_time
  preserves_strftime preserves_set_current_image
  preserves_set_current_image_base64 preserves_set_history_nil
  : preserves.

Ltac preserves_step :=
  repeat first
    [ solve [auto with preserves]
    | apply preserves_try_except; [|intros ?]
    | apply preserves_bind; [|intros ?]
    | apply preserves_for_each; intros [? ?] ].

Lemma preserves_process_uploaded_image ext f :
  preserves (process_uploaded_image ext f).
Proof.
  unfold process_uploaded_image.
  apply preserves_try_except; [|intros e; preserves_step].
  destruct (UploadedFile.size f >? size_limit); [preserves_step|].
  apply preserves_bind; [preserves_step|intros _].
  apply preserves_bind; [preserves_step|intros image].
  apply preserves_bind; [|intros; preserves_step].
  destruct (negb (Str.eqb (Image.mode image) (lit "RGB"))); preserves_step.
Qed.

Lemma preserves_clear_handler clicked : preserves (clear_handler clicked).
Proof.
  unfold clear_handler, clear. destruct (st_button clicked false);
    preserves_step.
Qed.

Lemma preserves_upload_handler ext f : preserves (upload_handler ext f).
Proof.
  unfold upload_handler, image_to_base64. destruct f as [f|]; [|preserves_step].
  apply preserves_bind; [apply preserves_process_uploaded_image|].
  intros [image|]; preserves_step.
Qed.

(** The only entry the "Ask" handler appends carries the trimmed question,
    which the test of line 150 found non-empty, and the response text,
    which the test of line 180 found non-empty. *)
Lemma preserves_ask_handler ext inp : preserves (ask_handler ext inp).
Proof.
  unfold ask_handler. rewrite ask_guard.
  destruct (ask_clicked inp); cbn [andb]; [|preserves_step].
  destruct (Str.truthy (Str.strip (question_input inp))) eqn:Hq;
    [|preserves_step].
  apply truthy_true in Hq.
  apply preserves_bind; [preserves_step|intros start_time].
  apply preserves_try_except; [|intros e; preserves_step].
  apply preserves_bind; [preserves_step|intros s].
  destruct (current_image s) as [image|]; [|preserves_step].
  apply preserves_bind; [preserves_step|intros _].
  apply preserves_bind; [preserves_step|intros response].
  apply preserves_bind; [preserves_step|intros end_time].
  apply preserves_bind_lift. intros t Ht.
  destruct (Str.truthy t) eqn:Hne; [|preserves_step].
  apply truthy_true in Hne.
  apply preserves_bind_lift. intros ai_response Hai.
  assert (ai_response = t) by congruence. subst ai_response.
  apply preserves_bind; [preserves_step|intros stamp].
  apply preserves_bind; [|intros; preserves_step].
  apply preserves_appendEntry. split; cbn [question answer].
  - rewrite strip_idem. exact Hq.
  - exact Hne.
Qed.

Lemma preserves_render_history ext : preserves (render_history ext).
Proof.
  unfold render_history.
  apply preserves_bind; [preserves_step|intros s].
  destruct (nonempty (conversation_history s)); preserves_step.
Qed.

Lemma preserves_footer : preserves footer.
Proof.
  unfold footer.
  apply preserves_bind; [preserves_step|intros _].
  apply preserves_bind; [preserves_step|intros _].
  apply preserves_bind; [preserves_step|intros s].
  destruct (negb (is_some (current_image s))); [preserves_step|].
  destruct (negb (nonempty (conversation_history s))); preserves_step.
Qed.

Lemma preserves_script ext inp : preserves (script ext inp).
Proof.
  unfold script.
  apply preserves_bind; [apply preserves_clear_handler|intros _].
  apply preserves_bind; [apply preserves_upload_handler|intros _].
  apply preserves_bind; [apply preserves_ask_handler|intros _].
  apply preserves_bind; [apply preserves_render_history|intros _].
  apply preserves_footer.
Qed.

(** C10: in every state a session can reach, every entry of
    [conversation_history] has a question that is non-empty after
    trimming and a non-empty answer. *)
Theorem history_entries_well_formed s :
  reachable s ->
  Forall (fun e => Str.strip (question e) <> [] /\ answer e <> [])
         (conversation_history s).
Proof.
  intros H. change (history_ok s). induction H as [|ext inp s H IH].
  - constructor.
  - unfold run_script. apply (preserves_script ext inp (fresh_world s)).
    exact IH.
Qed.

Lemma history_entries_well_formed_witness :
  Forall (fun e => Str.strip (question e) <> [] /\ answer e <> [])
         (conversation_history
            (run_script stub_ext (ask_inputs (lit "What color?"))
               (run_script stub_ext
                  {| temperature_slider := 7 # 10; top_k_slider := 20;
                     clear_clicked := false; uploaded_file := Some red_jpeg;
                     question_input := []; ask_clicked := false |}
                  initial_session_state))).
Proof.
  apply history_entries_well_formed.
  apply reachable_run. apply reachable_run. apply reachable_init.
Defined.

(* ===================================================================== *)
(** ** More on image ingestion *)
(* ===================================================================== *)

Lemma size_test_false f :
  UploadedFile.size f <= 10 * 1024 * 1024 ->
  (UploadedFile.size f >? size_limit) = false.
Proof.
  intros H. rewrite Z.gtb_ltb. apply Z.ltb_ge. unfold size_limit. lia.
Qed.

Lemma size_test_true f :
  UploadedFile.size f > 10 * 1024 * 1024 ->
  (UploadedFile.size f >? size_limit) = true.
Proof. intros H. apply Z.gtb_lt. unfold size_limit. lia. Qed.

(** X1: [process_uploaded_image] catches everything: whatever the file
    and whatever the decoder does, it ends normally with an optional
    image, leaves the session state and the clock as they were and only
    adds events to the trace. *)
Theorem process_uploaded_image_never_raises ext f w :
  exists r evs,
    fst (process_uploaded_image ext f w) = Normal r
    /\ session_state (snd (process_uploaded_image ext f w)) = session_state w
    /\ clock_reads (snd (process_uploaded_image ext f w)) = clock_reads w
    /\ trace (snd (process_uploaded_image ext f w)) = trace w ++ evs.
Proof.
  destruct (process_uploaded_image_frame ext f w) as (r & evs & E).
  exists r, evs. rewrite E. repeat split; reflexivity.
Qed.

(** X2: ingestion returns [None] in exactly three cases: the declared
    size is above 10 MiB, [Image.open] raises, or the opened image is not
    RGB and its conversion raises. *)
Theorem ingestion_fails_iff ext f w :
  fst (process_uploaded_image ext f w) = Normal None
  <-> (UploadedFile.size f > 10 * 1024 * 1024
       \/ (exists msg, Image_open ext f = Raises msg)
       \/ (exists img msg,
              Image_open ext f = Returns img
              /\ Image.mode img <> lit "RGB"
              /\ Image_convert ext img (lit "RGB") = Raises msg)).
Proof.
  unfold process_uploaded_image.
  destruct (Z_gt_le_dec (UploadedFile.size f) (10 * 1024 * 1024)) as [Hs|Hs].
  { rewrite (size_test_true f Hs). run_script_step. tauto. }
  rewrite (size_test_false f Hs). run_script_step.
  destruct (Image_open ext f) as [img|msg] eqn:Ho; run_script_step.
  2:{ split; [intros _; right; left; eexists; reflexivity | reflexivity]. }
  destruct (Str.eqb (Image.mode img) (lit "RGB")) eqn:Em; cbn [negb];
    run_script_step.
  { apply eqb_eq in Em. split; [discriminate|].
    intros [H|[[msg H]|(img' & msg & H1 & H2 & _)]];
      [lia | discriminate | congruence]. }
  apply eqb_neq in Em.
  destruct (Image_convert ext img (lit "RGB")) as [img'|msg] eqn:Ec;
    run_script_step.
  - split; [discriminate|].
    intros [H|[[msg H]|(img0 & msg & H1 & _ & H3)]];
      [lia | discriminate | ].
    inversion H1; subst img0. congruence.
  - split; [|reflexivity]. intros _. right; right.
    exists img, msg. auto.
Qed.

(** X3: an upload within the limit that opens as an RGB image is
    returned as it was opened: the only outside call is [Image.open],
    there is no conversion. *)
Theorem rgb_upload_not_converted ext f w img :
  UploadedFile.size f <= 10 * 1024 * 1024 ->
  Image_open ext f = Returns img ->
  Image.mode img = lit "RGB" ->
  process_uploaded_image ext f w
  = (Normal (Some img),
     {| session_state := session_state w;
        trace := trace w ++ [call_Image_open f];
        clock_reads := clock_reads w |}).
Proof.
  intros Hs Ho Hm. unfold process_uploaded_image.
  rewrite (size_test_false f Hs). run_script_step. rewrite Ho.
  apply eqb_eq in Hm. rewrite Hm. reflexivity.
Qed.

Lemma rgb_upload_not_converted_witness :
  process_uploaded_image stub_ext ten_mib_jpeg
    (fresh_world initial_session_state)
  = (Normal (Some red_image),
     {| session_state := initial_session_state;
        trace := [] ++ [call_Image_open ten_mib_jpeg];
        clock_reads := 0 |}).
Proof.
  apply (rgb_upload_not_converted stub_ext ten_mib_jpeg
           (fresh_world initial_session_state) red_image).
  - simpl. lia.
  - reflexivity.
  - reflexivity.
Defined.

(** X4: an upload within the limit that opens in another mode is passed
    to [convert('RGB')], and what ingestion returns is whatever the
    conversion returned; when the conversion raises, the error is shown
    with its message and ingestion returns [None]. *)
Theorem non_rgb_upload_converted ext f w img :
  UploadedFile.size f <= 10 * 1024 * 1024 ->
  Image_open ext f = Returns img ->
  Image.mode img <> lit "RGB" ->
  process_uploaded_image ext f w
  = match Image_convert ext img (lit "RGB") with
    | Returns img' =>
        (Normal (Some img'),
         {| session_state := session_state w;
            trace := (trace w ++ [call_Image_open f])
                     ++ [call_convert img (lit "RGB")];
            clock_reads := clock_reads w |})
    | Raises msg =>
        (Normal None,
         {| session_state := session_state w;
            trace := ((trace w ++ [call_Image_open f])
                      ++ [call_convert img (lit "RGB")])
                     ++ [st_error ([10060%N] ++ lit " Error processing image: " ++ msg)];
            clock_reads := clock_reads w |})
    end.
Proof.
  intros Hs Ho Hm. unfold process_uploaded_image.
  rewrite (size_test_false f Hs). run_script_step. rewrite Ho.
  apply eqb_neq in Hm. rewrite Hm. cbn [negb]. run_script_step.
  destruct (Image_convert ext img (lit "RGB")); reflexivity.
Qed.

Lemma non_rgb_upload_converted_witness :
  process_uploaded_image broken_convert_ext red_jpeg
    (fresh_world initial_session_state)
  = match Image_convert broken_convert_ext gray_image (lit "RGB") with
    | Returns img' =>
        (Normal (Some img'),
         {| session_state := initial_session_state;
            trace := ([] ++ [call_Image_open red_jpeg])
                     ++ [call_convert gray_image (lit "RGB")];
            clock_reads := 0 |})
    | Raises msg =>
        (Normal None,
         {| session_state := initial_session_state;
            trace := (([] ++ [call_Image_open red_jpeg])
                      ++ [call_convert gray_image (lit "RGB")])
                     ++ [st_error ([10060%N] ++ lit " Error processing image: " ++ msg)];
            clock_reads := 0 |})
    end.
Proof.
  apply (non_rgb_upload_converted broken_convert_ext red_jpeg
           (fresh_world initial_session_state) gray_image).
  - simpl. lia.
  - reflexivity.
  - vm_compute. discriminate.
Defined.

(* ===================================================================== *)
(** ** The upload handler *)
(* ===================================================================== *)

Ltac run_upload_step :=
  cbv beta iota delta [image_to_base64]; run_script_step.

(** The three ways the upload handler ends once ingestion has returned. *)
Lemma upload_handler_world ext f w r w1 :
  process_uploaded_image ext f w = (Normal r, w1) ->
  upload_handler ext (Some f) w
  = match r with
    | None =>
        (Normal tt,
         {| session_state :=
              {| conversation_history := conversation_history (session_state w1);
                 current_image := None;
                 current_image_base64 := None |};
            trace := trace w1;
            clock_reads := clock_reads w1 |})
    | Some image =>
        match Image_save ext image (lit "JPEG") with
        | Raises msg =>
            (Exception msg,
             {| session_state :=
                  {| conversation_history :=
                       conversation_history (session_state w1);
                     current_image := Some image;
                     current_image_base64 :=
                       current_image_base64 (session_state w1) |};
                trace := trace w1 ++ [call_save image (lit "JPEG")];
                clock_reads := clock_reads w1 |})
        | Returns buffered =>
            (Normal tt,
             {| session_state :=
                  {| conversation_history :=
                       conversation_history (session_state w1);
                     current_image := Some image;
                     current_image_base64 := Some (b64encode ext buffered) |};
                trace :=
                  ((trace w1 ++ [call_save image (lit "JPEG")])
                   ++ [st_image image (lit "Uploaded Image")])
                  ++ [st_info
                        ([128202%N] ++ lit " Image Info: "
                         ++ Str.of_int (fst (Image.size image)) ++ lit "x"
                         ++ Str.of_int (snd (Image.size image))
                         ++ lit " pixels, "
                         ++ format_f ext 1
                              (inject_Z (UploadedFile.size f) / 1024)
                         ++ lit " KB")];
                clock_reads := clock_reads w1 |})
        end
    end.
Proof.
  intros E. unfold upload_handler. rewrite (bind_normal _ _ _ _ _ E).
  destruct r as [image|]; run_upload_step; [|reflexivity].
  destruct (Image_save ext image (lit "JPEG")); reflexivity.
Qed.

(** X5: the upload handler never changes the conversation history:
    with or without a file, whether ingestion succeeds or fails, and even
    when the JPEG encoding raises. *)
Theorem upload_keeps_history ext file w :
  conversation_history (session_state (snd (upload_handler ext file w)))
  = conversation_history (session_state w).
Proof.
  destruct file as [f|]; [|reflexivity].
  destruct (process_uploaded_image_frame ext f w) as (r & evs & E).
  rewrite (upload_handler_world ext f w r _ E).
  destruct r as [image|]; [|reflexivity].
  destruct (Image_save ext image (lit "JPEG")); reflexivity.
Qed.

(** X6: when ingestion returns an image and its JPEG encoding succeeds,
    the upload handler ends normally, [current_image] is that image,
    [current_image_base64] is the base64 text of the encoding, and the
    image and its dimensions are shown. *)
Theorem successful_upload_stores_image ext f w image buffered :
  fst (process_uploaded_image ext f w) = Normal (Some image) ->
  Image_save ext image (lit "JPEG") = Returns buffered ->
  let r := upload_handler ext (Some f) w in
  fst r = Normal tt
  /\ current_image (session_state (snd r)) = Some image
  /\ current_image_base64 (session_state (snd r))
     = Some (b64encode ext buffered)
  /\ In (st_image image (lit "Uploaded Image")) (trace (snd r)).
Proof.
  intros H Hsave r. subst r.
  destruct (process_uploaded_image_frame ext f w) as (r & evs & E).
  rewrite E in H. cbn [fst] in H. inversion H; subst r.
  rewrite (upload_handler_world ext f w _ _ E), Hsave.
  cbn [fst snd session_state current_image current_image_base64 trace].
  repeat split; try reflexivity.
  apply in_or_app. left. apply in_or_app. right. left. reflexivity.
Qed.

Lemma successful_upload_stores_image_witness :
  let r := upload_handler stub_ext (Some red_jpeg)
             (fresh_world initial_session_state) in
  fst r = Normal tt
  /\ current_image (session_state (snd r)) = Some red_image
  /\ current_image_base64 (session_state (snd r))
     = Some (b64encode stub_ext [])
  /\ In (st_image red_image (lit "Uploaded Image")) (trace (snd r)).
Proof.
  apply (successful_upload_stores_image stub_ext red_jpeg
           (fresh_world initial_session_state) red_image []).
  - reflexivity.
  - reflexivity.
Defined.

(** X7: when ingestion returns an image but its JPEG encoding raises,
    the exception is not caught: the upload handler ends with it, after
    [current_image] was already set to the new image and with
    [current_image_base64] still holding its previous value. *)
Theorem failed_encoding_leaves_stale_base64 ext f w image msg :
  fst (process_uploaded_image ext f w) = Normal (Some image) ->
  Image_save ext image (lit "JPEG") = Raises msg ->
  let r := upload_handler ext (Some f) w in
  fst r = Exception msg
  /\ current_image (session_state (snd r)) = Some image
  /\ current_image_base64 (session_state (snd r))
     = current_image_base64 (session_state w)
  /\ conversation_history (session_state (snd r))
     = conversation_history (session_state w).
Proof.
  intros H Hsave r. subst r.
  destruct (process_uploaded_image_frame ext f w) as (r & evs & E).
  rewrite E in H. cbn [fst] in H. inversion H; subst r.
  rewrite (upload_handler_world ext f w _ _ E), Hsave.
  repeat split; reflexivity.
Qed.

Lemma failed_encoding_leaves_stale_base64_witness :
  let r := upload_handler broken_save_ext (Some red_jpeg)
             (fresh_world initial_session_state) in
  fst r = Exception (lit "cannot write mode")
  /\ current_image (session_state (snd r)) = Some red_image
  /\ current_image_base64 (session_state (snd r))
     = current_image_base64 (session_state (fresh_world initial_session_state))
  /\ conversation_history (session_state (snd r))
     = conversation_history (session_state (fresh_world initial_session_state)).
Proof.
  apply (failed_encoding_leaves_stale_base64 broken_save_ext red_jpeg
           (fresh_world initial_session_state) red_image
           (lit "cannot write mode")).
  - reflexivity.
  - reflexivity.
Defined.

(* ===================================================================== *)
(** ** More on the "Ask" handler *)
(* ===================================================================== *)

Lemma app_snoc2 {A} (l : list A) a b : (l ++ [a]) ++ [b] = l ++ [a; b].
Proof. rewrite <- app_assoc. reflexivity. Qed.

(** Every way the "Ask" handler can go, with the world it leaves. *)
Lemma ask_handler_world ext inp w :
  ask_handler ext inp w
  = if ask_clicked inp && Str.truthy (Str.strip (question_input inp)) then
      match current_image (session_state w) with
      | None =>
          (StopScript,
           {| session_state := session_state w;
              trace := trace w ++ [no_image_warning];
              clock_reads := S (clock_reads w) |})
      | Some image =>
          match remote_result ext inp image with
          | Raises msg =>
              (Normal tt,
               {| session_state := session_state w;
                  trace := trace w ++ ask_request inp image
                                      :: remote_error_events msg;
                  clock_reads := S (clock_reads w) |})
          | Returns response =>
              match text response with
              | Raises msg =>
                  (Normal tt,
                   {| session_state := session_state w;
                      trace := trace w ++ ask_request inp image
                                          :: remote_error_events msg;
                      clock_reads := S (S (clock_reads w)) |})
              | Returns t =>
                  if Str.truthy t then
                    let e := recorded_entry ext inp (clock_reads w) t in
                    (Normal tt,
                     {| session_state :=
                          {| conversation_history :=
                               conversation_history (session_state w) ++ [e];
                             current_image := current_image (session_state w);
                             current_image_base64 :=
                               current_image_base64 (session_state w) |};
                        trace := trace w ++ ask_request inp image
                                            :: answer_events ext e;
                        clock_reads := S (S (S (clock_reads w))) |})
                  else
                    (Normal tt,
                     {| session_state := session_state w;
                        trace := trace w ++ [ask_request inp image;
                                             no_response_error];
                        clock_reads := S (S (clock_reads w)) |})
              end
          end
      end
    else (Normal tt, w).
Proof.
  unfold ask_handler. rewrite ask_guard.
  destruct (ask_clicked inp && Str.truthy (Str.strip (question_input inp)));
    [|reflexivity].
  run_ask_step.
  destruct (current_image (session_state w)) as [image|] eqn:Hi;
    run_ask_step; [|reflexivity].
  unfold remote_result.
  destruct (generate_content ext (full_prompt_of (question_input inp)) image
              (generation_config_of (temperature_slider inp)
                 (top_k_slider inp))) as [response|msg]; run_ask_step.
  2:{ rewrite <- !app_assoc. reflexivity. }
  destruct (text response) as [t|msg]; run_ask_step.
  2:{ rewrite <- !app_assoc. reflexivity. }
  destruct (Str.truthy t); run_ask_step.
  - rewrite <- !app_assoc, Hi. reflexivity.
  - rewrite <- !app_assoc. reflexivity.
Qed.

(** X8: the "Ask" handler never lets an exception escape and never asks
    for a rerun: it stops the script exactly when the button was clicked
    with a non-blank question and no image is held, and ends normally in
    every other case, whatever the remote model does. *)
Theorem ask_outcome ext inp w :
  fst (ask_handler ext inp w)
  = if ask_clicked inp && Str.truthy (Str.strip (question_input inp))
       && negb (is_some (current_image (session_state w)))
    then StopScript else Normal tt.
Proof.
  rewrite ask_handler_world.
  destruct (ask_clicked inp && Str.truthy (Str.strip (question_input inp)));
    [|reflexivity].
  destruct (current_image (session_state w)) as [image|]; [|reflexivity].
  destruct (remote_result ext inp image) as [response|msg]; [|reflexivity].
  destruct (text response) as [t|msg]; [|reflexivity].
  destruct (Str.truthy t); reflexivity.
Qed.

(** X9: the "Ask" handler never touches the image or its base64 copy,
    and it changes the history in one way only: by appending one entry,
    whose question is the trimmed input, whose answer is a non-empty
    response text and whose response time is the difference of the two
    clock readings. *)
Theorem ask_changes_only_history ext inp w :
  let w' := snd (ask_handler ext inp w) in
  current_image (session_state w') = current_image (session_state w)
  /\ current_image_base64 (session_state w')
     = current_image_base64 (session_state w)
  /\ (conversation_history (session_state w')
      = conversation_history (session_state w)
      \/ exists t,
           t <> []
           /\ conversation_history (session_state w')
              = conversation_history (session_state w)
                ++ [recorded_entry ext inp (clock_reads w) t]).
Proof.
  intros w'. subst w'. rewrite ask_handler_world.
  destruct (ask_clicked inp && Str.truthy (Str.strip (question_input inp)));
    [|auto].
  destruct (current_image (session_state w)) as [image|] eqn:Hi; [|auto].
  destruct (remote_result ext inp image) as [response|msg]; [|auto].
  destruct (text response) as [t|msg]; [|auto].
  destruct (Str.truthy t) eqn:Ht; [|auto].
  cbn. repeat split; auto.
  right. exists t. split; [apply truthy_true; exact Ht | reflexivity].
Qed.

(** X10: a run of the "Ask" handler calls the remote model once when the
    button was clicked with a non-blank question and an image is held,
    and not at all otherwise; in particular never twice, whether the
    call succeeds or fails. *)
Theorem ask_remote_call_count ext inp w :
  remote_calls (trace (snd (ask_handler ext inp w)))
  = (remote_calls (trace w)
     + if ask_clicked inp && Str.truthy (Str.strip (question_input inp))
          && is_some (current_image (session_state w))
       then 1 else 0)%nat.
Proof.
  rewrite ask_handler_world.
  destruct (ask_clicked inp && Str.truthy (Str.strip (question_input inp)));
    [|cbn; lia].
  destruct (current_image (session_state w)) as [image|];
    [|cbn [snd trace andb is_some]; rewrite remote_calls_app; cbn; lia].
  destruct (remote_result ext inp image) as [response|msg];
    [|cbn [snd trace andb is_some]; rewrite remote_calls_app; cbn; lia].
  destruct (text response) as [t|msg];
    [|cbn [snd trace andb is_some]; rewrite remote_calls_app; cbn; lia].
  destruct (Str.truthy t);
    cbn [snd trace andb is_some]; rewrite remote_calls_app; cbn; lia.
Qed.

(** X11: the successful path in full.  The request carries the system
    prompt, a blank line, "User Question: " and the trimmed question,
    together with the held image, the two slider values and 1024 output
    tokens; the clock is read three times and the entry's timestamp is the
    third reading rendered with "%H:%M:%S"; the answer and the response
    time are then shown. *)
Theorem successful_ask_world ext inp w image response t :
  ask_clicked inp = true ->
  Str.strip (question_input inp) <> [] ->
  current_image (session_state w) = Some image ->
  generate_content ext
    (system_prompt ++ [10%N; 10%N] ++ lit "User Question: "
     ++ Str.strip (question_input inp))
    image
    {| temperature := temperature_slider inp;
       top_k := top_k_slider inp;
       max_output_tokens := 1024 |} = Returns response ->
  text response = Returns t ->
  t <> [] ->
  let e := {| question := Str.strip (question_input inp);
              answer := t;
              response_time := (time_time ext (S (clock_reads w))
                                - time_time ext (clock_reads w))%Q;
              timestamp := time_strftime ext (lit "%H:%M:%S")
                             (S (S (clock_reads w))) |} in
  ask_handler ext inp w
  = (Normal tt,
     {| session_state :=
          {| conversation_history :=
               conversation_history (session_state w) ++ [e];
             current_image := Some image;
             current_image_base64 := current_image_base64 (session_state w) |};
        trace :=
          trace w ++
          [call_generate_content
             (system_prompt ++ [10%N; 10%N] ++ lit "User Question: "
              ++ Str.strip (question_input inp))
             image
             {| temperature := temperature_slider inp;
                top_k := top_k_slider inp;
                max_output_tokens := 1024 |};
           st_success ([9989%N] ++ lit " Response generated successfully!");
           st_markdown (lit "**AI Response:**");
           st_markdown t;
           st_caption ([9201%N; 65039%N] ++ lit " Response time: "
                       ++ format_f ext 2 (response_time e)
                       ++ lit " seconds")];
        clock_reads := S (S (S (clock_reads w))) |}).
Proof.
  intros Hc Hq Hi Hr Ht Hne e. subst e.
  apply truthy_true in Hq, Hne.
  rewrite ask_handler_world, Hc, Hq, Hi. cbn [andb].
  unfold remote_result, full_prompt_of, generation_config_of.
  rewrite Hr, Ht, Hne. reflexivity.
Qed.

Lemma successful_ask_world_witness :
  ask_handler stub_ext (ask_inputs (lit " What color? "))
    (fresh_world state_with_image)
  = (Normal tt,
     {| session_state :=
          {| conversation_history :=
               [] ++ [ {| question := lit "What color?";
                          answer := lit "The image is red.";
                          response_time := (inject_Z 1 - inject_Z 0)%Q;
                          timestamp := lit "12:00:00" |} ];
             current_image := Some red_image;
             current_image_base64 := Some [] |};
        trace :=
          [] ++
          [call_generate_content
             (system_prompt ++ [10%N; 10%N] ++ lit "User Question: "
              ++ lit "What color?")
             red_image
             {| temperature := 7 # 10;
                top_k := 20;
                max_output_tokens := 1024 |};
           st_success ([9989%N] ++ lit " Response generated successfully!");
           st_markdown (lit "**AI Response:**");
           st_markdown (lit "The image is red.");
           st_caption ([9201%N; 65039%N] ++ lit " Response time: "
                       ++ [] ++ lit " seconds")];
        clock_reads := 3 |}).
Proof.
  apply (successful_ask_world stub_ext (ask_inputs (lit " What color? "))
           (fresh_world state_with_image) red_image
           {| text := Returns (lit "The image is red.") |}
           (lit "The image is red.")).
  - reflexivity.
  - vm_compute. discriminate.
  - reflexivity.
  - reflexivity.
  - reflexivity.
  - vm_compute. discriminate.
Defined.

Lemma lstrip_blank_prefix a s :
  forallb Str.isspace a = true -> Str.lstrip (a ++ s) = Str.lstrip s.
Proof.
  induction a as [|c a IH]; simpl; [reflexivity|].
  intros H. apply andb_true_iff in H as [Hc Ha]. rewrite Hc. auto.
Qed.

Lemma forallb_rev {A} (f : A -> bool) l :
  forallb f l = true -> forallb f (rev l) = true.
Proof.
  rewrite !forallb_forall. intros H x Hx. apply H, in_rev, Hx.
Qed.

Lemma rstrip_blank_suffix s b :
  forallb Str.isspace b = true -> Str.rstrip (s ++ b) = Str.rstrip s.
Proof.
  intros H. unfold Str.rstrip. rewrite rev_app_distr.
  rewrite lstrip_blank_prefix by (apply forallb_rev; exact H). reflexivity.
Qed.

Lemma lstrip_app_nonblank s b c t :
  Str.lstrip s = c :: t -> Str.lstrip (s ++ b) = (c :: t) ++ b.
Proof.
  induction s as [|x s IH]; simpl; [discriminate|].
  destruct (Str.isspace x); [exact IH|].
  intros H. inversion H; subst. reflexivity.
Qed.

(** Whitespace around a string does not change what [strip] gives. *)
Lemma strip_padding a s b :
  forallb Str.isspace a = true -> forallb Str.isspace b = true ->
  Str.strip (a ++ s ++ b) = Str.strip s.
Proof.
  intros Ha Hb. unfold Str.strip. rewrite (lstrip_blank_prefix a _ Ha).
  destruct (Str.lstrip s) as [|c t] eqn:E.
  - assert (Hs : forallb Str.isspace (s ++ b) = true).
    { rewrite forallb_app, Hb, (lstrip_nil_blank s E). reflexivity. }
    rewrite (lstrip_blank (s ++ b) Hs). reflexivity.
  - rewrite (lstrip_app_nonblank s b c t E).
    apply rstrip_blank_suffix. exact Hb.
Qed.

(** X12: whitespace typed before or after the question is ignored: the
    "Ask" handler does exactly the same (same guard, same request, same
    recorded entry) as for the question without it. *)
Theorem ask_ignores_surrounding_whitespace ext inp a q b w :
  forallb Str.isspace a = true ->
  forallb Str.isspace b = true ->
  ask_handler ext (with_question inp (a ++ q ++ b)) w
  = ask_handler ext (with_question inp q) w.
Proof.
  intros Ha Hb. pose proof (strip_padding a q b Ha Hb) as E.
  unfold ask_handler, full_prompt_of.
  cbn [with_question question_input ask_clicked temperature_slider
       top_k_slider].
  rewrite E. reflexivity.
Qed.

Lemma ask_ignores_surrounding_whitespace_witness :
  ask_handler stub_ext
    (with_question (ask_inputs []) (lit "  " ++ lit "What color?" ++ lit " "))
    (fresh_world state_with_image)
  = ask_handler stub_ext (with_question (ask_inputs []) (lit "What color?"))
      (fresh_world state_with_image).
Proof.
  apply (ask_ignores_surrounding_whitespace stub_ext (ask_inputs [])
           (lit "  ") (lit "What color?") (lit " ")
           (fresh_world state_with_image)).
  - reflexivity.
  - reflexivity.
Defined.

(* ===================================================================== *)
(** ** More on the history view *)
(* ===================================================================== *)

(** X13: labels are stable: appending an entry puts it on top with the
    next ordinal and leaves every earlier entry with the label it had. *)
Theorem history_view_append (h : list ConversationEntry) e :
  history_view (h ++ [e])
  = (Z.of_nat (List.length h) + 1, e) :: history_view h.
Proof.
  rewrite !history_view_chronological. unfold enumerate.
  rewrite enumerate_from_snoc, map_app, rev_app_distr. reflexivity.
Qed.

Lemma render_history_nonempty ext w :
  conversation_history (session_state w) <> [] ->
  render_history ext w
  = for_each (enumerate (rev (conversation_history (session_state w))))
      (fun '(i, entry) =>
         (emit (st_expander
                  (expander_title
                     (entry_ordinal (conversation_history (session_state w)) i)
                     entry)) ;;
          emit (st_markdown (lit "**Question:** " ++ question entry)) ;;
          emit (st_markdown (lit "**Answer:** " ++ answer entry)) ;;
          emit (st_caption (lit "Response time: "
                            ++ format_f ext 2 (response_time entry)
                            ++ lit "s"))))
      (snd (emit (st_subheader ([128218%N] ++ lit " Conversation History")) w)).
Proof.
  intros H. unfold render_history.
  rewrite (bind_normal get_state _ w (session_state w) w eq_refl).
  destruct (conversation_history (session_state w)); [congruence|].
  cbn [nonempty]. reflexivity.
Qed.

(** X14: rendering the history is read-only: it always ends normally and
    leaves the session state as it was; it shows one expander per entry,
    and nothing at all, not even the heading, when the history is empty. *)
Theorem render_history_read_only ext w :
  let r := render_history ext w in
  fst r = Normal tt
  /\ session_state (snd r) = session_state w
  /\ List.length (expander_titles (trace (snd r)))
     = (List.length (expander_titles (trace w))
        + List.length (conversation_history (session_state w)))%nat
  /\ (conversation_history (session_state w) = [] -> r = (Normal tt, w)).
Proof.
  intros r. subst r.
  destruct (conversation_history (session_state w)) as [|e h] eqn:E.
  { unfold render_history.
    rewrite (bind_normal get_state _ w (session_state w) w eq_refl), E.
    cbn. repeat split; auto. }
  assert (Hne : conversation_history (session_state w) <> [])
    by (rewrite E; discriminate).
  rewrite (render_history_nonempty ext w Hne).
  match goal with |- context [for_each ?l _ ?w1] =>
    destruct (render_loop ext (conversation_history (session_state w)) l w1)
      as (H1 & H2 & H3) end.
  cbv zeta in H1, H2, H3. rewrite H1, H2, H3.
  split; [reflexivity|]. split; [reflexivity|]. split; [|discriminate].
  rewrite length_app, length_map. unfold enumerate.
  cbn [snd emit trace]. rewrite expander_titles_app. cbn [expander_titles].
  rewrite app_nil_r. f_equal.
  rewrite <- (length_map snd), enumerate_from_snd, length_rev, E.
  reflexivity.
Qed.

(* ===================================================================== *)
(** ** A whole run of the script *)
(* ===================================================================== *)

Lemma remote_calls_nil : remote_calls [] = 0%nat.
Proof. reflexivity. Qed.

(** Ingestion, with the events it adds: none of them is a remote call. *)
Lemma process_uploaded_image_events ext f w :
  exists r evs,
    process_uploaded_image ext f w
    = (Normal r,
       {| session_state := session_state w;
          trace := trace w ++ evs;
          clock_reads := clock_reads w |})
    /\ remote_calls evs = 0%nat.
Proof.
  unfold process_uploaded_image.
  destruct (UploadedFile.size f >? size_limit); run_script_step.
  { eexists _, [_]. split; reflexivity. }
  destruct (Image_open ext f) as [img|msg]; run_script_step.
  2:{ exists None. eexists [_; _]. rewrite <- app_assoc.
      split; reflexivity. }
  destruct (negb (Str.eqb (Image.mode img) (lit "RGB"))); run_script_step.
  2:{ eexists _, [_]. split; reflexivity. }
  destruct (Image_convert ext img (lit "RGB")) as [img'|msg]; run_script_step.
  - eexists _, [_; _]. rewrite <- app_assoc. split; reflexivity.
  - exists None. eexists [_; _; _]. rewrite <- !app_assoc.
    split; reflexivity.
Qed.

(** The outcome of ingestion does not depend on the world it runs in. *)
Lemma process_uploaded_image_outcome ext f w w' :
  fst (process_uploaded_image ext f w) = fst (process_uploaded_image ext f w').
Proof.
  unfold process_uploaded_image.
  destruct (UploadedFile.size f >? size_limit); run_script_step;
    [reflexivity|].
  destruct (Image_open ext f) as [img|msg]; run_script_step; [|reflexivity].
  destruct (negb (Str.eqb (Image.mode img) (lit "RGB"))); run_script_step;
    [|reflexivity].
  destruct (Image_convert ext img (lit "RGB")); reflexivity.
Qed.

(** The loop of the history view, with the world it leaves. *)
Lemma render_loop_events ext h l w :
  exists evs,
    for_each l
      (fun '(i, entry) =>
         (emit (st_expander (expander_title (entry_ordinal h i) entry)) ;;
          emit (st_markdown (lit "**Question:** " ++ question entry)) ;;
          emit (st_markdown (lit "**Answer:** " ++ answer entry)) ;;
          emit (st_caption (lit "Response time: "
                            ++ format_f ext 2 (response_time entry)
                            ++ lit "s")))) w
    = (Normal tt,
       {| session_state := session_state w;
          trace := trace w ++ evs;
          clock_reads := clock_reads w |})
    /\ remote_calls evs = 0%nat.
Proof.
  revert w. induction l as [|[i e] l IH]; intros w.
  - exists []. rewrite app_nil_r. destruct w. split; reflexivity.
  - cbn [for_each]. unfold bind at 1. run_script_step.
    match goal with |- context [for_each l ?b ?w1] =>
      destruct (IH w1) as (evs & E & Hn) end.
    eexists (_ :: _ :: _ :: _ :: evs).
    split.
    + etransitivity; [exact E|]. cbn [session_state trace clock_reads].
      rewrite <- !app_assoc. reflexivity.
    + cbn. exact Hn.
Qed.

Lemma render_history_events ext w :
  exists evs,
    render_history ext w
    = (Normal tt,
       {| session_state := session_state w;
          trace := trace w ++ evs;
          clock_reads := clock_reads w |})
    /\ remote_calls evs = 0%nat.
Proof.
  destruct (conversation_history (session_state w)) as [|e h] eqn:E.
  { exists []. unfold render_history.
    rewrite (bind_normal get_state _ w (session_state w) w eq_refl), E.
    rewrite app_nil_r. destruct w. split; reflexivity. }
  assert (Hne : conversation_history (session_state w) <> [])
    by (rewrite E; discriminate).
  rewrite (render_history_nonempty ext w Hne).
  match goal with |- context [for_each ?l _ ?w1] =>
    destruct (render_loop_events ext
                (conversation_history (session_state w)) l w1)
      as (evs & H & Hn) end.
  exists (st_subheader ([128218%N] ++ lit " Conversation History") :: evs).
  split; [|exact Hn].
  etransitivity; [exact H|]. cbn [snd emit session_state trace clock_reads].
  rewrite <- app_assoc. reflexivity.
Qed.

Lemma footer_events w :
  exists evs,
    footer w
    = (Normal tt,
       {| session_state := session_state w;
          trace := trace w ++ evs;
          clock_reads := clock_reads w |})
    /\ remote_calls evs = 0%nat.
Proof.
  unfold footer. run_script_step.
  destruct (current_image (session_state w)); cbn [is_some negb].
  - destruct (conversation_history (session_state w)); cbn [nonempty negb];
      run_script_step.
    + eexists [_; _; _]. rewrite <- !app_assoc. split; reflexivity.
    + eexists [_; _]. rewrite <- !app_assoc. split; reflexivity.
  - run_script_step.
    eexists [_; _; _]. rewrite <- !app_assoc. split; reflexivity.
Qed.

(** What follows the handlers (history and footer) always ends normally
    and only adds display events. *)
Lemma page_tail_events ext w :
  exists evs,
    (render_history ext ;; footer) w
    = (Normal tt,
       {| session_state := session_state w;
          trace := trace w ++ evs;
          clock_reads := clock_reads w |})
    /\ remote_calls evs = 0%nat.
Proof.
  destruct (render_history_events ext w) as (evs1 & E1 & H1).
  rewrite (bind_normal _ _ _ _ _ E1).
  match goal with |- context [footer ?w1] =>
    destruct (footer_events w1) as (evs2 & E2 & H2) end.
  exists (evs1 ++ evs2). split.
  - rewrite E2. cbn [session_state trace clock_reads].
    rewrite app_assoc. reflexivity.
  - rewrite remote_calls_app. lia.
Qed.

(** A run in which "Clear Conversation" was not clicked is the upload
    handler, then the "Ask" handler, then the history and the footer. *)
Lemma script_without_clear ext inp w :
  clear_clicked inp = false ->
  script ext inp w
  = (upload_handler ext (uploaded_file inp) ;;
     ask_handler ext inp ;;
     render_history ext ;;
     footer) w.
Proof.
  intros H. unfold script, clear_handler, st_button. rewrite H.
  reflexivity.
Qed.

(** After a handler that ended normally, the history and the footer
    change neither the outcome nor the session state. *)
Lemma bind_page_tail ext (c : M unit) w :
  fst ((c ;; render_history ext ;; footer) w) = fst (c w)
  /\ session_state (snd ((c ;; render_history ext ;; footer) w))
     = session_state (snd (c w))
  /\ exists evs,
       trace (snd ((c ;; render_history ext ;; footer) w))
       = trace (snd (c w)) ++ evs
       /\ remote_calls evs = 0%nat.
Proof.
  destruct (c w) as [[[]|msg| |] w1] eqn:Ec;
    try (unfold bind; rewrite Ec; cbn [fst snd];
         split; [reflexivity|]; split; [reflexivity|];
         exists []; rewrite app_nil_r; split; reflexivity).
  rewrite (bind_normal _ _ _ _ _ Ec).
  destruct (page_tail_events ext w1) as (evs & E & Hn).
  rewrite E. cbn [fst snd session_state trace].
  split; [reflexivity|]. split; [reflexivity|]. exists evs. auto.
Qed.

(** The upload handler, with the world it leaves: the history and the
    clock are untouched, no remote call is made, and it ends normally or
    with the exception of the JPEG encoding. *)
Lemma upload_handler_frame ext file w :
  exists o s' evs,
    upload_handler ext file w
    = (o, {| session_state := s';
             trace := trace w ++ evs;
             clock_reads := clock_reads w |})
    /\ conversation_history s' = conversation_history (session_state w)
    /\ remote_calls evs = 0%nat
    /\ (base64_needs_image (session_state w) -> base64_needs_image s')
    /\ (o = Normal tt
        \/ exists f image msg,
             file = Some f
             /\ fst (process_uploaded_image ext f w) = Normal (Some image)
             /\ Image_save ext image (lit "JPEG") = Raises msg
             /\ o = Exception msg).
Proof.
  destruct file as [f|].
  2:{ exists (Normal tt), (session_state w), []. rewrite app_nil_r.
      destruct w. cbn. repeat split; auto. }
  destruct (process_uploaded_image_events ext f w) as (r & evs & E & Hn).
  rewrite (upload_handler_world ext f w r _ E).
  cbn [session_state trace clock_reads].
  destruct r as [image|].
  2:{ eexists _, _, evs. split; [reflexivity|]. repeat split; auto. }
  destruct (Image_save ext image (lit "JPEG")) as [buffered|msg] eqn:Hs.
  - eexists _, _, (evs ++ [_; _; _]). split.
    + rewrite <- !app_assoc. reflexivity.
    + cbn [conversation_history]. split; [reflexivity|]. split.
      * rewrite remote_calls_app, Hn. reflexivity.
      * split; [intros _ H; discriminate H | left; reflexivity].
  - eexists _, _, (evs ++ [_]). split.
    + rewrite <- !app_assoc. reflexivity.
    + cbn [conversation_history]. split; [reflexivity|]. split.
      * rewrite remote_calls_app, Hn. reflexivity.
      * split; [intros _ H; discriminate H|].
        right. exists f, image, msg. rewrite E. auto.
Qed.

(** A run in which "Clear Conversation" was clicked. *)
Lemma clear_run_world ext inp w :
  clear_clicked inp = true ->
  script ext inp w
  = (RerunScript,
     {| session_state := initial_session_state;
        trace := trace w;
        clock_reads := clock_reads w |}).
Proof.
  intros H. unfold script, clear_handler, st_button. rewrite H. reflexivity.
Qed.

(** In a run without "Clear Conversation", the outcome and the session
    state are those the two handlers leave; the rest only adds display
    events. *)
Lemma script_handlers ext inp w :
  clear_clicked inp = false ->
  let handlers := (upload_handler ext (uploaded_file inp) ;;
                   ask_handler ext inp) in
  fst (script ext inp w) = fst (handlers w)
  /\ session_state (snd (script ext inp w)) = session_state (snd (handlers w))
  /\ exists evs,
       trace (snd (script ext inp w)) = trace (snd (handlers w)) ++ evs
       /\ remote_calls evs = 0%nat.
Proof.
  intros Hc handlers. subst handlers. rewrite (script_without_clear _ _ _ Hc).
  destruct (upload_handler ext (uploaded_file inp) w) as [[[]|msg| |] w1] eqn:Eu.
  - rewrite !(bind_normal _ _ _ _ _ Eu). apply bind_page_tail.
  - unfold bind. rewrite Eu. cbn [fst snd].
    split; [reflexivity|]. split; [reflexivity|].
    exists []. rewrite app_nil_r. split; reflexivity.
  - unfold bind. rewrite Eu. cbn [fst snd].
    split; [reflexivity|]. split; [reflexivity|].
    exists []. rewrite app_nil_r. split; reflexivity.
  - unfold bind. rewrite Eu. cbn [fst snd].
    split; [reflexivity|]. split; [reflexivity|].
    exists []. rewrite app_nil_r. split; reflexivity.
Qed.

(** X15: a click on "Clear Conversation" wins over everything else in
    the same run: whatever file is in the uploader and even if "Ask" was
    clicked, the run resets the session, shows nothing, calls nobody and
    ends by asking for a rerun. *)
Theorem clear_click_wins ext inp w :
  clear_clicked inp = true ->
  script ext inp w
  = (RerunScript,
     {| session_state := initial_session_state;
        trace := trace w;
        clock_reads := clock_reads w |}).
Proof.
  intros H. unfold script, clear_handler, st_button. rewrite H. reflexivity.
Qed.

Lemma clear_click_wins_witness :
  script stub_ext
    {| temperature_slider := 7 # 10; top_k_slider := 20;
       clear_clicked := true; uploaded_file := Some red_jpeg;
       question_input := lit "What color?"; ask_clicked := true |}
    (fresh_world state_with_image)
  = (RerunScript,
     {| session_state := initial_session_state;
        trace := [];
        clock_reads := 0 |}).
Proof.
  apply (clear_click_wins stub_ext
           {| temperature_slider := 7 # 10; top_k_slider := 20;
              clear_clicked := true; uploaded_file := Some red_jpeg;
              question_input := lit "What color?"; ask_clicked := true |}
           (fresh_world state_with_image)).
  reflexivity.
Defined.

(** X16: when the file in the uploader fails ingestion in the run in
    which "Ask" is clicked, the question is not sent: the image held
    before is dropped first, so the run shows the "No image uploaded"
    warning, stops, calls the remote model not at all and leaves the
    history as it was. *)
Theorem failed_upload_blocks_ask ext inp f w :
  clear_clicked inp = false ->
  uploaded_file inp = Some f ->
  ask_clicked inp = true ->
  Str.strip (question_input inp) <> [] ->
  fst (process_uploaded_image ext f w) = Normal None ->
  let r := script ext inp w in
  fst r = StopScript
  /\ session_state (snd r)
     = {| conversation_history := conversation_history (session_state w);
          current_image := None;
          current_image_base64 := None |}
  /\ remote_calls (trace (snd r)) = remote_calls (trace w)
  /\ In no_image_warning (trace (snd r)).
Proof.
  intros Hc Hf Ha Hq Hp r. subst r. apply truthy_true in Hq.
  destruct (script_handlers ext inp w Hc) as (H1 & H2 & evs & H3 & Hn).
  rewrite H1, H2, H3, Hf. clear H1 H2 H3.
  destruct (process_uploaded_image_events ext f w) as (r0 & evs0 & E & Hn0).
  rewrite E in Hp. cbn [fst] in Hp. inversion Hp; subst r0.
  pose proof (upload_handler_world ext f w _ _ E) as Eu. cbv iota in Eu.
  rewrite (bind_normal _ _ _ _ _ Eu).
  rewrite ask_handler_world, Ha, Hq.
  cbn [andb session_state current_image conversation_history trace
       clock_reads fst snd].
  split; [reflexivity|]. split; [reflexivity|]. split.
  - rewrite !remote_calls_app, Hn, Hn0. cbn. lia.
  - apply in_or_app. left. apply in_or_app. right. left. reflexivity.
Qed.

Lemma failed_upload_blocks_ask_witness :
  let inp := {| temperature_slider := 7 # 10; top_k_slider := 20;
                clear_clicked := false; uploaded_file := Some oversized_jpeg;
                question_input := lit "What color?"; ask_clicked := true |} in
  let w := fresh_world state_with_image in
  let r := script stub_ext inp w in
  fst r = StopScript
  /\ session_state (snd r)
     = {| conversation_history := conversation_history (session_state w);
          current_image := None;
          current_image_base64 := None |}
  /\ remote_calls (trace (snd r)) = remote_calls (trace w)
  /\ In no_image_warning (trace (snd r)).
Proof.
  apply (failed_upload_blocks_ask stub_ext
           {| temperature_slider := 7 # 10; top_k_slider := 20;
              clear_clicked := false; uploaded_file := Some oversized_jpeg;
              question_input := lit "What color?"; ask_clicked := true |}
           oversized_jpeg (fresh_world state_with_image)).
  - reflexivity.
  - reflexivity.
  - reflexivity.
  - vm_compute. discriminate.
  - reflexivity.
Defined.

Lemma ask_remote_call_count_aux ext inp w :
  remote_calls (trace (snd (ask_handler ext inp w)))
  = (remote_calls (trace w)
     + if ask_clicked inp && Str.truthy (Str.strip (question_input inp))
          && is_some (current_image (session_state w))
       then 1 else 0)%nat.
Proof.
  rewrite ask_handler_world.
  destruct (ask_clicked inp && Str.truthy (Str.strip (question_input inp)));
    [|cbn; lia].
  destruct (current_image (session_state w)) as [image|];
    [|cbn [snd trace andb is_some]; rewrite remote_calls_app; cbn; lia].
  destruct (remote_result ext inp image) as [response|msg];
    [|cbn [snd trace andb is_some]; rewrite remote_calls_app; cbn; lia].
  destruct (text response) as [t|msg];
    [|cbn [snd trace andb is_some]; rewrite remote_calls_app; cbn; lia].
  destruct (Str.truthy t);
    cbn [snd trace andb is_some]; rewrite remote_calls_app; cbn; lia.
Qed.

Lemma ask_request_in_trace ext inp w image :
  ask_clicked inp = true ->
  Str.truthy (Str.strip (question_input inp)) = true ->
  current_image (session_state w) = Some image ->
  In (ask_request inp image) (trace (snd (ask_handler ext inp w))).
Proof.
  intros Ha Hq Hi. rewrite ask_handler_world, Ha, Hq, Hi. cbn [andb].
  destruct (remote_result ext inp image) as [response|m];
    [|apply in_or_app; right; left; reflexivity].
  destruct (text response) as [t|m];
    [|apply in_or_app; right; left; reflexivity].
  destruct (Str.truthy t); apply in_or_app; right; left; reflexivity.
Qed.

Lemma ask_not_exception ext inp w msg :
  fst (ask_handler ext inp w) <> Exception msg.
Proof.
  rewrite ask_handler_world.
  destruct (ask_clicked inp && Str.truthy (Str.strip (question_input inp)));
    [|discriminate].
  destruct (current_image (session_state w)) as [image|]; [|discriminate].
  destruct (remote_result ext inp image) as [response|m]; [|discriminate].
  destruct (text response) as [t|m]; [|discriminate].
  destruct (Str.truthy t); discriminate.
Qed.

Lemma ask_history_cases ext inp w :
  conversation_history (session_state (snd (ask_handler ext inp w)))
  = conversation_history (session_state w)
  \/ exists t,
       t <> []
       /\ conversation_history (session_state (snd (ask_handler ext inp w)))
          = conversation_history (session_state w)
            ++ [recorded_entry ext inp (clock_reads w) t].
Proof.
  rewrite ask_handler_world.
  destruct (ask_clicked inp && Str.truthy (Str.strip (question_input inp)));
    [|auto].
  destruct (current_image (session_state w)) as [image|]; [|auto].
  destruct (remote_result ext inp image) as [response|m]; [|auto].
  destruct (text response) as [t|m]; [|auto].
  destruct (Str.truthy t) eqn:Ht; [|auto].
  right. exists t. split; [apply truthy_true; exact Ht | reflexivity].
Qed.

Lemma ask_images ext inp w :
  current_image (session_state (snd (ask_handler ext inp w)))
  = current_image (session_state w)
  /\ current_image_base64 (session_state (snd (ask_handler ext inp w)))
     = current_image_base64 (session_state w).
Proof.
  rewrite ask_handler_world.
  destruct (ask_clicked inp && Str.truthy (Str.strip (question_input inp)));
    [|auto].
  destruct (current_image (session_state w)) as [image|] eqn:Hi; [|auto].
  destruct (remote_result ext inp image) as [response|m]; [|auto].
  destruct (text response) as [t|m]; [|auto].
  destruct (Str.truthy t); cbn; auto.
Qed.

(** X17: in a run where a file is in the uploader, the question is asked
    about the image ingested from that file in the same run, whatever
    image the session held before: the one remote call of the run carries
    it. *)
Theorem ask_uses_fresh_upload ext inp f w image buffered :
  clear_clicked inp = false ->
  uploaded_file inp = Some f ->
  ask_clicked inp = true ->
  Str.strip (question_input inp) <> [] ->
  fst (process_uploaded_image ext f w) = Normal (Some image) ->
  Image_save ext image (lit "JPEG") = Returns buffered ->
  let r := script ext inp w in
  In (call_generate_content
        (full_prompt_of (question_input inp)) image
        (generation_config_of (temperature_slider inp) (top_k_slider inp)))
     (trace (snd r))
  /\ remote_calls (trace (snd r)) = S (remote_calls (trace w))
  /\ current_image (session_state (snd r)) = Some image.
Proof.
  intros Hc Hf Ha Hq Hp Hs r. subst r. apply truthy_true in Hq.
  destruct (script_handlers ext inp w Hc) as (_ & H2 & evs & H3 & Hn).
  rewrite H2, H3, Hf. clear H2 H3.
  destruct (process_uploaded_image_events ext f w) as (r0 & evs0 & E & Hn0).
  rewrite E in Hp. cbn [fst] in Hp. inversion Hp; subst r0.
  pose proof (upload_handler_world ext f w _ _ E) as Eu. cbv iota in Eu.
  rewrite Hs in Eu. rewrite (bind_normal _ _ _ _ _ Eu).
  match goal with |- context [ask_handler ext inp ?w2] =>
    pose proof (ask_remote_call_count_aux ext inp w2) as Hcount;
    pose proof (ask_request_in_trace ext inp w2 image Ha Hq eq_refl) as Hin;
    destruct (ask_images ext inp w2) as [Himg _]
  end.
  split; [apply in_or_app; left; exact Hin|]. split.
  - rewrite remote_calls_app, Hn, Hcount, Ha, Hq.
    cbn [andb session_state current_image is_some trace].
    rewrite !remote_calls_app, Hn0. cbn. lia.
  - rewrite Himg. reflexivity.
Qed.

Lemma ask_uses_fresh_upload_witness :
  let r := script stub_ext upload_and_ask_inputs
             (fresh_world state_with_gray_image) in
  In (call_generate_content
        (full_prompt_of (question_input upload_and_ask_inputs)) red_image
        (generation_config_of (temperature_slider upload_and_ask_inputs)
           (top_k_slider upload_and_ask_inputs)))
     (trace (snd r))
  /\ remote_calls (trace (snd r))
     = S (remote_calls (trace (fresh_world state_with_gray_image)))
  /\ current_image (session_state (snd r)) = Some red_image.
Proof.
  apply (ask_uses_fresh_upload stub_ext upload_and_ask_inputs red_jpeg
           (fresh_world state_with_gray_image) red_image []).
  - reflexivity.
  - reflexivity.
  - reflexivity.
  - vm_compute. discriminate.
  - reflexivity.
  - reflexivity.
Defined.

(** What a run does to the history, from any world. *)
Lemma script_history_cases ext inp w :
  let h := conversation_history (session_state w) in
  let h' := conversation_history (session_state (snd (script ext inp w))) in
  if clear_clicked inp then h' = []
  else h' = h
       \/ exists t,
            t <> [] /\ h' = h ++ [recorded_entry ext inp (clock_reads w) t].
Proof.
  intros h h'. subst h h'.
  destruct (clear_clicked inp) eqn:Hc.
  { unfold script, clear_handler, st_button. rewrite Hc. reflexivity. }
  destruct (script_handlers ext inp w Hc) as (_ & H2 & _). rewrite H2.
  destruct (upload_handler_frame ext (uploaded_file inp) w)
    as (o & s' & evs & E & Hh & _ & _ & Ho).
  destruct Ho as [->|(f & image & msg & _ & _ & _ & ->)].
  - rewrite (bind_normal _ _ _ _ _ E).
    match goal with |- context [ask_handler ext inp ?w2] =>
      destruct (ask_history_cases ext inp w2) as [H|(t & Ht & H)] end;
      cbn [session_state clock_reads] in H; rewrite H, Hh; [left|right];
      [reflexivity | exists t; auto].
  - unfold bind. rewrite E. cbn [snd session_state]. left. exact Hh.
Qed.

(** X18: a run changes the history in one of three ways only: it empties
    it ("Clear Conversation" clicked), leaves it as it was, or appends
    exactly one entry, whose question is the trimmed input and whose
    answer is a non-empty response text.  Entries already stored are
    never changed, reordered or removed one by one. *)
Theorem run_history_step ext inp s :
  let h' := conversation_history (run_script ext inp s) in
  (clear_clicked inp = true /\ h' = [])
  \/ (clear_clicked inp = false /\ h' = conversation_history s)
  \/ (clear_clicked inp = false
      /\ exists e,
           h' = conversation_history s ++ [e]
           /\ question e = Str.strip (question_input inp)
           /\ question e <> []
           /\ answer e <> []).
Proof.
  intros h'. subst h'. unfold run_script.
  pose proof (script_history_cases ext inp (fresh_world s)) as H.
  cbv zeta in H. cbn [fresh_world session_state clock_reads] in H.
  destruct (clear_clicked inp) eqn:Hc; [left; auto|].
  destruct H as [H|(t & Ht & H)]; [right; left; auto|].
  right; right. split; [reflexivity|].
  eexists. split; [exact H|]. cbn [recorded_entry question answer].
  split; [reflexivity|]. split; [|exact Ht].
  (* the entry exists only if the guard of line 150 passed *)
  intros Hq.
  assert (Hn : conversation_history
                 (session_state (snd (script ext inp (fresh_world s))))
               = conversation_history s).
  { destruct (script_handlers ext inp (fresh_world s) Hc) as (_ & H2 & _).
    rewrite H2.
    destruct (upload_handler_frame ext (uploaded_file inp) (fresh_world s))
      as (o & s' & evs & E & Hh & _ & _ & Ho).
    destruct Ho as [->|(f & image & msg & _ & _ & _ & ->)].
    - rewrite (bind_normal _ _ _ _ _ E), ask_handler_world, Hq.
      cbn [Str.truthy]. rewrite andb_false_r. exact Hh.
    - unfold bind. rewrite E. exact Hh. }
  rewrite Hn in H. apply (f_equal (@List.length _)) in H.
  rewrite length_app in H. cbn in H. lia.
Qed.

(** X19: the only exception that escapes a run of the script is the one
    of the JPEG encoding in [image_to_base64]: a run ends with an
    exception exactly when "Clear Conversation" was not clicked, a file
    is in the uploader, its ingestion returned an image and saving that
    image as JPEG raised; the message is that of the encoder. *)
Theorem script_exception_iff ext inp w msg :
  fst (script ext inp w) = Exception msg
  <-> (clear_clicked inp = false
       /\ exists f image,
            uploaded_file inp = Some f
            /\ fst (process_uploaded_image ext f w) = Normal (Some image)
            /\ Image_save ext image (lit "JPEG") = Raises msg).
Proof.
  destruct (clear_clicked inp) eqn:Hc.
  { unfold script, clear_handler, st_button. rewrite Hc. cbn.
    split; [discriminate | intros [H _]; discriminate H]. }
  destruct (script_handlers ext inp w Hc) as (H1 & _). rewrite H1.
  split.
  - intros H. split; [reflexivity|].
    destruct (upload_handler_frame ext (uploaded_file inp) w)
      as (o & s' & evs & E & _ & _ & _ & Ho).
    destruct Ho as [->|(f & image & m & Hf & Hp & Hs & ->)].
    + rewrite (bind_normal _ _ _ _ _ E) in H.
      exfalso. exact (ask_not_exception _ _ _ _ H).
    + unfold bind in H. rewrite E in H. cbn [fst] in H.
      inversion H; subst m. exists f, image. auto.
  - intros (_ & f & image & Hf & Hp & Hs). rewrite Hf.
    destruct (process_uploaded_image_events ext f w) as (r0 & evs0 & E & _).
    rewrite E in Hp. cbn [fst] in Hp. inversion Hp; subst r0.
    pose proof (upload_handler_world ext f w _ _ E) as Eu. cbv iota in Eu.
    rewrite Hs in Eu. unfold bind. rewrite Eu. reflexivity.
Qed.

(** X20: in every state a session can reach, the question stored in
    each history entry is already trimmed: it has no whitespace at either
    end, so trimming it again changes nothing. *)
Theorem stored_questions_are_trimmed s :
  reachable s ->
  Forall (fun e => Str.strip (question e) = question e)
         (conversation_history s).
Proof.
  intros H. induction H as [|ext inp s H IH]; [constructor|].
  unfold run_script.
  pose proof (script_history_cases ext inp (fresh_world s)) as Hs.
  cbv zeta in Hs. cbn [fresh_world session_state clock_reads] in Hs.
  destruct (clear_clicked inp).
  - rewrite Hs. constructor.
  - destruct Hs as [Hs|(t & _ & Hs)]; rewrite Hs; [exact IH|].
    apply Forall_app. split; [exact IH|].
    constructor; [|constructor].
    cbn [recorded_entry question]. apply strip_idem.
Qed.

Lemma stored_questions_are_trimmed_witness :
  Forall (fun e => Str.strip (question e) = question e)
         (conversation_history
            (run_script stub_ext (ask_inputs (lit "  What color? "))
               (run_script stub_ext (upload_inputs red_jpeg)
                  initial_session_state))).
Proof.
  apply stored_questions_are_trimmed.
  apply reachable_run. apply reachable_run. apply reachable_init.
Defined.

(** What a run does to the image and its base64 copy. *)
Lemma script_keeps_base64_needs_image ext inp w :
  base64_needs_image (session_state w) ->
  base64_needs_image (session_state (snd (script ext inp w))).
Proof.
  intros H. destruct (clear_clicked inp) eqn:Hc.
  { unfold script, clear_handler, st_button. rewrite Hc. cbn.
    intros _. reflexivity. }
  destruct (script_handlers ext inp w Hc) as (_ & H2 & _). rewrite H2.
  destruct (upload_handler_frame ext (uploaded_file inp) w)
    as (o & s' & evs & E & _ & _ & Hb & Ho).
  specialize (Hb H).
  destruct Ho as [->|(f & image & msg & _ & _ & _ & ->)].
  - rewrite (bind_normal _ _ _ _ _ E).
    match goal with |- context [ask_handler ext inp ?w2] =>
      destruct (ask_images ext inp w2) as [Hi Hb64] end.
    unfold base64_needs_image. rewrite Hi, Hb64. exact Hb.
  - unfold bind. rewrite E. exact Hb.
Qed.

(** X21: in every state a session can reach, a base64 copy is never held
    without an image: when [current_image] is absent, so is
    [current_image_base64]. *)
Theorem base64_only_with_image s :
  reachable s ->
  current_image s = None ->
  current_image_base64 s = None.
Proof.
  intros H. change (base64_needs_image s).
  induction H as [|ext inp s H IH]; [intros _; reflexivity|].
  unfold run_script.
  apply (script_keeps_base64_needs_image ext inp (fresh_world s)). exact IH.
Qed.

Lemma base64_only_with_image_witness :
  current_image_base64
    (run_script stub_ext (upload_inputs oversized_jpeg)
       (run_script stub_ext (upload_inputs red_jpeg) initial_session_state))
  = None.
Proof.
  apply base64_only_with_image.
  - apply reachable_run. apply reachable_run. apply reachable_init.
  - reflexivity.
Defined.

(** X22: "Clear Conversation" does not get rid of the image for long
    when the file is still in the uploader: the run that follows the
    clear ingests the file again, so after it the history is empty but
    [current_image] and its base64 copy are back. *)
Theorem clear_then_rerun_restores_image ext inp inp' s f image buffered :
  clear_clicked inp = true ->
  clear_clicked inp' = false ->
  uploaded_file inp' = Some f ->
  ask_clicked inp' = false ->
  fst (process_uploaded_image ext f (fresh_world initial_session_state))
  = Normal (Some image) ->
  Image_save ext image (lit "JPEG") = Returns buffered ->
  run_script ext inp s = initial_session_state
  /\ run_script ext inp' (run_script ext inp s)
     = {| conversation_history := [];
          current_image := Some image;
          current_image_base64 := Some (b64encode ext buffered) |}.
Proof.
  intros Hc Hc' Hf Ha Hp Hs.
  assert (E0 : run_script ext inp s = initial_session_state).
  { unfold run_script, script, clear_handler, st_button. rewrite Hc.
    reflexivity. }
  split; [exact E0|]. rewrite E0. unfold run_script.
  destruct (script_handlers ext inp' (fresh_world initial_session_state) Hc')
    as (_ & H2 & _).
  rewrite H2, Hf.
  destruct (process_uploaded_image_events ext f
              (fresh_world initial_session_state)) as (r0 & evs0 & E & _).
  rewrite E in Hp. cbn [fst] in Hp. inversion Hp; subst r0.
  pose proof (upload_handler_world ext f _ _ _ E) as Eu. cbv iota in Eu.
  rewrite Hs in Eu. rewrite (bind_normal _ _ _ _ _ Eu).
  rewrite ask_handler_world, Ha. reflexivity.
Qed.

Lemma clear_then_rerun_restores_image_witness :
  run_script stub_ext
    {| temperature_slider := 7 # 10; top_k_slider := 20;
       clear_clicked := true; uploaded_file := Some red_jpeg;
       question_input := []; ask_clicked := false |}
    state_with_image = initial_session_state
  /\ run_script stub_ext (upload_inputs red_jpeg)
       (run_script stub_ext
          {| temperature_slider := 7 # 10; top_k_slider := 20;
             clear_clicked := true; uploaded_file := Some red_jpeg;
             question_input := []; ask_clicked := false |}
          state_with_image)
     = {| conversation_history := [];
          current_image := Some red_image;
          current_image_base64 := Some (b64encode stub_ext []) |}.
Proof.
  apply (clear_then_rerun_restores_image stub_ext
           {| temperature_slider := 7 # 10; top_k_slider := 20;
              clear_clicked := true; uploaded_file := Some red_jpeg;
              question_input := []; ask_clicked := false |}
           (upload_inputs red_jpeg) state_with_image red_jpeg red_image []).
  - reflexivity.
  - reflexivity.
  - reflexivity.
  - reflexivity.
  - reflexivity.
  - reflexivity.
Defined.

(* ===================================================================== *)
(** ** Start-up *)
(* ===================================================================== *)

(** X23: start-up never ends with an exception.  Without a key (unset or
    empty) it shows the "GEMINI_API_KEY not found" error, and only that
    one, and stops the script: the stop raised inside the [try] is not
    taken for a configuration failure.  With a key, a failure of the
    client library is shown with its message and stops the script too;
    the model object is returned, with nothing shown, only when both
    library calls return. *)
Theorem startup_outcome su w :
  startup su w
  = let api_key := os_getenv su (lit "GEMINI_API_KEY") in
    let failed msg :=
      (StopScript,
       {| session_state := session_state w;
          trace := trace w ++
                   [st_error ([10060%N] ++ lit " Failed to configure Gemini API: " ++ msg)];
          clock_reads := clock_reads w |}) in
    if truthy_opt api_key then
      match genai_configure su api_key with
      | Raises msg => failed msg
      | Returns _ =>
          match genai_GenerativeModel su (lit "gemini-2.0-flash-exp") with
          | Raises msg => failed msg
          | Returns model => (Normal model, w)
          end
      end
    else
      (StopScript,
       {| session_state := session_state w;
          trace := trace w ++ [missing_key_error];
          clock_reads := clock_reads w |}).
Proof.
  unfold startup, configure_gemini. cbv zeta.
  destruct (truthy_opt (os_getenv su (lit "GEMINI_API_KEY"))); cbn [negb];
    run_script_step; [|reflexivity].
  destruct (genai_configure su (os_getenv su (lit "GEMINI_API_KEY")));
    run_script_step; [|reflexivity].
  destruct (genai_GenerativeModel su (lit "gemini-2.0-flash-exp"));
    run_script_step; [|reflexivity].
  destruct w; reflexivity.
Qed.

(** X24: without a key the application serves nothing: whatever the
    widgets hold and whatever the session stores, the run shows the one
    error, stops, and leaves the stored session exactly as it found it
    (missing keys are not even initialised). *)
Theorem app_without_key su ext inp raw :
  truthy_opt (os_getenv su (lit "GEMINI_API_KEY")) = false ->
  app su ext inp raw = (StopScript, raw, [missing_key_error]).
Proof.
  intros H. unfold app, startup, configure_gemini. cbv zeta.
  rewrite H. reflexivity.
Qed.

Lemma app_without_key_witness :
  app keyless_startup stub_ext upload_and_ask_inputs (stored state_with_image)
  = (StopScript, stored state_with_image, [missing_key_error]).
Proof.
  apply (app_without_key keyless_startup stub_ext upload_and_ask_inputs
           (stored state_with_image)).
  reflexivity.
Defined.

(** X25: the history survives from run to run: when start-up succeeds
    and "Clear Conversation" is not clicked, the history stored after the
    run is the one stored before (empty if the session had none yet), with at
    most one entry added at the end. *)
Theorem app_keeps_history su ext inp raw model :
  fst (startup su (fresh_world initial_session_state)) = Normal model ->
  clear_clicked inp = false ->
  exists l,
    raw_conversation_history (snd (fst (app su ext inp raw)))
    = Some (default (raw_conversation_history raw) [] ++ l)
    /\ (List.length l <= 1)%nat.
Proof.
  intros Hs Hc. unfold app.
  destruct (startup su (fresh_world initial_session_state))
    as [o w0] eqn:E.
  cbn [fst] in Hs. subst o. cbn [fst snd stored raw_conversation_history].
  match goal with |- context [script ?e inp ?w1] =>
    pose proof (script_history_cases e inp w1) as H end.
  cbv zeta in H. rewrite Hc in H.
  cbn [session_state init_session_state conversation_history] in H.
  destruct H as [H|(t & _ & H)]; rewrite H.
  - exists []. rewrite app_nil_r. split; [reflexivity | cbn; lia].
  - eexists [_]. split; [reflexivity | cbn; lia].
Qed.

Lemma app_keeps_history_witness :
  exists l,
    raw_conversation_history
      (snd (fst (app stub_startup stub_ext (ask_inputs (lit "What color?"))
                   (stored state_with_image))))
    = Some (default (raw_conversation_history (stored state_with_image)) []
            ++ l)
    /\ (List.length l <= 1)%nat.
Proof.
  apply (app_keeps_history stub_startup stub_ext
           (ask_inputs (lit "What color?")) (stored state_with_image)
           (generate_content stub_ext)).
  - reflexivity.
  - reflexivity.
Defined.

(* ===================================================================== *)
(** ** Reruns *)
(* ===================================================================== *)

(** X26: a run in which nothing was asked of the application (no click
    on "Clear Conversation", no file in the uploader, and "Ask" not
    clicked or clicked on a blank question) leaves the session exactly as
    it was: image, base64 copy and history survive the rerun. *)
Theorem idle_run_keeps_session ext inp s :
  clear_clicked inp = false ->
  uploaded_file inp = None ->
  ask_clicked inp = false \/ forallb Str.isspace (question_input inp) = true ->
  run_script ext inp s = s.
Proof.
  intros Hc Hf Ha. unfold run_script.
  destruct (script_handlers ext inp (fresh_world s) Hc) as (_ & H2 & _).
  rewrite H2, Hf. cbn [upload_handler].
  rewrite (bind_normal (ret tt) _ (fresh_world s) tt (fresh_world s) eq_refl).
  rewrite ask_handler_world.
  destruct Ha as [Ha|Ha].
  - rewrite Ha. reflexivity.
  - apply strip_blank_iff in Ha. rewrite Ha. cbn [Str.truthy].
    rewrite andb_false_r. reflexivity.
Qed.

Lemma idle_run_keeps_session_witness :
  run_script stub_ext idle_inputs state_with_image = state_with_image.
Proof.
  apply (idle_run_keeps_session stub_ext idle_inputs state_with_image).
  - reflexivity.
  - reflexivity.
  - left. reflexivity.
Defined.

(** X27: ingesting the same file again changes nothing more: a run
    without clicks, repeated with the same file in the uploader, leaves
    the session the first such run left, whether the ingestion succeeds,
    fails, or the JPEG encoding raises. *)
Theorem upload_rerun_idempotent ext inp s :
  clear_clicked inp = false ->
  ask_clicked inp = false ->
  run_script ext inp (run_script ext inp s) = run_script ext inp s.
Proof.
  intros Hc Ha.
  assert (Hrun : forall s0,
             run_script ext inp s0
             = session_state
                 (snd (upload_handler ext (uploaded_file inp)
                         (fresh_world s0)))).
  { intros s0. unfold run_script.
    destruct (script_handlers ext inp (fresh_world s0) Hc) as (_ & H2 & _).
    rewrite H2.
    destruct (upload_handler ext (uploaded_file inp) (fresh_world s0))
      as [[[]|msg| |] w1] eqn:Eu.
    - rewrite (bind_normal _ _ _ _ _ Eu), ask_handler_world, Ha. reflexivity.
    - unfold bind. rewrite Eu. reflexivity.
    - unfold bind. rewrite Eu. reflexivity.
    - unfold bind. rewrite Eu. reflexivity. }
  rewrite !Hrun.
  destruct (uploaded_file inp) as [f|]; [|reflexivity].
  set (s1 := session_state (snd (upload_handler ext (Some f) (fresh_world s)))).
  destruct (process_uploaded_image_events ext f (fresh_world s))
    as (r & evs & E & _).
  destruct (process_uploaded_image_events ext f (fresh_world s1))
    as (r1 & evs1 & E1 & _).
  assert (r1 = r).
  { pose proof (process_uploaded_image_outcome ext f (fresh_world s1)
                  (fresh_world s)) as Ho.
    rewrite E, E1 in Ho. cbn [fst] in Ho. inversion Ho. reflexivity. }
  subst r1.
  rewrite (upload_handler_world ext f _ _ _ E1).
  assert (Hs1 : s1 = session_state
                       (snd (upload_handler ext (Some f) (fresh_world s))))
    by reflexivity.
  rewrite (upload_handler_world ext f _ _ _ E) in Hs1.
  destruct r as [image|].
  - destruct (Image_save ext image (lit "JPEG"));
      cbn [snd session_state fresh_world conversation_history
           current_image_base64] in *; rewrite Hs1; reflexivity.
  - cbn [snd session_state fresh_world conversation_history] in *.
    rewrite Hs1. reflexivity.
Qed.

Lemma upload_rerun_idempotent_witness :
  run_script broken_save_ext (upload_inputs red_jpeg)
    (run_script broken_save_ext (upload_inputs red_jpeg) state_with_gray_image)
  = run_script broken_save_ext (upload_inputs red_jpeg) state_with_gray_image.
Proof.
  apply (upload_rerun_idempotent broken_save_ext (upload_inputs red_jpeg)
           state_with_gray_image).
  - reflexivity.
  - reflexivity.
Defined.

(** X28: a run of the script calls the remote model at most once,
    whatever the inputs, the session and the behaviour of the outside. *)
Theorem script_at_most_one_remote_call ext inp w :
  (remote_calls (trace (snd (script ext inp w)))
   <= S (remote_calls (trace w)))%nat.
Proof.
  destruct (clear_clicked inp) eqn:Hc.
  { rewrite (clear_run_world ext inp w Hc). cbn [snd trace]. lia. }
  destruct (script_handlers ext inp w Hc) as (_ & _ & evs & H3 & Hn).
  rewrite H3, remote_calls_app, Hn.
  destruct (upload_handler_frame ext (uploaded_file inp) w)
    as (o & s' & evs0 & E & _ & Hn0 & _ & Ho).
  destruct Ho as [->|(f & image & msg & _ & _ & _ & ->)].
  - rewrite (bind_normal _ _ _ _ _ E), ask_remote_call_count_aux.
    cbn [trace]. rewrite remote_calls_app, Hn0.
    destruct (_ && _ && _); lia.
  - unfold bind. rewrite E. cbn [snd trace].
    rewrite remote_calls_app, Hn0. lia.
Qed.
